(** * BlrAqi: daily aggregation of air-quality readings

    A shallow embedding of [aqi_fetcher_python.py]: the part of
    [get_aqi_data] that runs once the HTTP response has been decoded
    (lines 46-100), [get_aqi_description], [print_aqi_summary] and the
    statistics of the script (lines 157-165); and of the page that [app.py]
    builds (lines 33-90).

    Modelling choices.
    - Python [int] is [Z].
    - A Python [float] is a binary64 number: Rocq's primitive [float], whose
      [+], [-] and [/] round to nearest, ties to even, as the hardware does.
      The pollutant values, their sums, their means and the rounding of
      line 88 are computed on these floats.  [sum] on floats is plain
      left-to-right addition before CPython 3.12 and Neumaier's compensated
      summation from 3.12 on; which of the two runs is the parameter
      [sum_version].
    - The mean of AQI codes (lines 83 and 162, and [df['aqi'].mean()]) is
      the quotient of two ints.  It is kept as the exact rational ([Q]):
      the int sum is exact, Python rounds the quotient once to the nearest
      double, and for the sums of AQI codes [round] of that double is
      [round] of the quotient.
    - A raised exception is a value of [exn]; a computation that may raise
      returns [result].
    - A [dict] whose iteration order matters ([daily_data], the per-day
      [pollutants], [avg_pollutants]) is an association list in insertion
      order with pairwise distinct keys; the decoded JSON objects, which are
      only read by key, are [gmap]s.
    - The key ['date'] is the string [strftime('%Y-%m-%d')] of a local
      calendar date; [strptime] reads it back to the same date.  Both the
      dictionary key and the sort key are modelled by the calendar date
      itself, a triple (year, month, day).  The local time zone is a
      parameter [utcoffset], the offset in seconds at a given instant.
    - The decoded JSON is taken to be well typed: ['dt'] and ['aqi'] are
      ints, the components are floats (a component that the JSON text
      writes without a fraction is taken as the float of the same value),
      and ['dt'] lies in the range of years that [datetime] supports and
      [strftime] prints with four digits.  What may be missing is a key. *)

From Stdlib Require Import ZArith QArith Qround Lia Sorted Permutation Floats.
From stdpp Require Import base option list strings gmap sorting pretty.

Local Open Scope string_scope.
Local Open Scope list_scope.
Local Open Scope Z_scope.

(** ** Exceptions *)

Inductive exn : Type :=
  | KeyError (key : string)
  | ZeroDivisionError.

Inductive result (A : Type) : Type :=
  | Ok (a : A)
  | Raise (e : exn).
Arguments Ok {A} a.
Arguments Raise {A} e.

#[global] Instance result_ret : MRet result := λ A a, Ok a.
#[global] Instance result_bind : MBind result := λ A B f m,
  match m with
  | Ok a => f a
  | Raise e => Raise e
  end.

#[global] Instance exn_eq_dec : EqDecision exn.
Proof. solve_decision. Defined.

(** ** Numbers *)

(** [a / b] on ints: true division, kept exact. *)
Definition py_truediv (a b : Q) : result Q :=
  if Qeq_bool b 0 then Raise ZeroDivisionError else Ok (a / b)%Q.

(** [round(x)]: nearest integer, ties to the even one. *)
Definition py_round (x : Q) : Z :=
  let f := Qfloor x in
  match Qcompare (x - inject_Z f) (1 # 2) with
  | Lt => f
  | Gt => f + 1
  | Eq => if Z.even f then f else f + 1
  end.

(** [sum] of a list of ints, from the start value 0. *)
Definition sum_int (l : list Z) : Z := foldl Z.add 0 l.

Definition len {A} (l : list A) : Z := Z.of_nat (length l).

(** ** Floats *)

(** [float(z)] of an int below 2^63 in size; exact up to 2^53. *)
Definition float_of_Z (z : Z) : float :=
  match z with
  | Z0 => 0%float
  | Zpos _ => PrimFloat.of_uint63 (Uint63Axioms.of_Z z)
  | Zneg p => (- PrimFloat.of_uint63 (Uint63Axioms.of_Z (Zpos p)))%float
  end.

(** [a / n] for a float [a] and an int [n]. *)
Definition py_truediv_float (a : float) (n : Z) : result float :=
  if decide (n = 0) then Raise ZeroDivisionError
  else Ok (a / float_of_Z n)%float.

(** The rational [m * 2^e]. *)
Definition scale2 (m : positive) (e : Z) : Q :=
  match e with
  | Z0 => inject_Z (Zpos m)
  | Zpos _ => inject_Z (Zpos m * 2 ^ e)
  | Zneg p => Qmake (Zpos m) (2 ^ p)%positive
  end.

(** [round(x, 2)].  CPython rounds the exact value of [x] to the nearest
    multiple [k/100] of a hundredth, ties to even [k], and returns the
    double nearest to [k/100].  For [k] below 2^53 that double is the
    quotient of the floats [k] and [100], both exact.  From 2^46 on the
    doubles are at least 1/64 apart, so the double nearest to [k/100] is
    [x] itself; this covers every [k] from 2^53 on.  Zeros, infinities and
    nan are returned as they are. *)
Definition py_round2 (x : float) : float :=
  match Prim2SF x with
  | S754_finite s m e =>
      let k := py_round (scale2 m e * 100) in
      if k <? 2 ^ 53 then
        let r := (float_of_Z k / 100)%float in
        if s then (- r)%float else r
      else x
  | _ => x
  end.

(** The two algorithms of [sum] on floats: plain left-to-right addition
    (CPython before 3.12) and Neumaier's compensated summation (3.12 and
    later). *)
Inductive SumVersion : Type :=
  | Plain
  | Compensated.

(** One step of the compensated loop on the running sum [f] and the
    compensation [c]. *)
Definition neumaier_step (st : float * float) (x : float) : float * float :=
  let '(f, c) := st in
  let t := (f + x)%float in
  if (abs x <=? abs f)%float then (t, (c + ((f - t) + x))%float)
  else (t, (c + ((x - t) + f))%float).

(** ** Calendar dates *)

Record Date : Type := mkDate { year : Z; month : Z; day : Z }.

#[global] Instance Date_eq_dec : EqDecision Date.
Proof. solve_decision. Defined.

Record DateTime : Type := mkDateTime {
  dt_date : Date;
  hour : Z;
  minute : Z;
  second : Z
}.

(** Proleptic Gregorian date of the day [n] days after 1970-01-01. *)
Definition civil_from_days (n : Z) : Date :=
  let z := n + 719468 in
  let era := z `div` 146097 in
  let doe := z - era * 146097 in
  let yoe := (doe - doe `div` 1460 + doe `div` 36524 - doe `div` 146096) `div` 365 in
  let doy := doe - (365 * yoe + yoe `div` 4 - yoe `div` 100) in
  let mp := (5 * doy + 2) `div` 153 in
  let d := doy - (153 * mp + 2) `div` 5 + 1 in
  let m := if decide (mp < 10) then mp + 3 else mp - 9 in
  let y := yoe + era * 400 in
  mkDate (if decide (m ≤ 2) then y + 1 else y) m d.

(** The order of [datetime] values restricted to dates. *)
Definition date_le (a b : Date) : Prop :=
  year a < year b ∨
  (year a = year b ∧ (month a < month b ∨ (month a = month b ∧ day a ≤ day b))).

Definition date_lt (a b : Date) : Prop :=
  year a < year b ∨
  (year a = year b ∧ (month a < month b ∨ (month a = month b ∧ day a < day b))).

#[global] Instance date_le_dec : RelDecision date_le.
Proof. intros a b. unfold date_le. apply _. Defined.

#[global] Instance date_lt_dec : RelDecision date_lt.
Proof. intros a b. unfold date_lt. apply _. Defined.

(** ** Dictionaries with a default factory *)

(** [m[k] = f(m[k])] on a [defaultdict] whose factory returns [dflt]: a
    missing key is appended with the value [f dflt]. *)
Fixpoint dd_update {K V} `{EqDecision K}
    (dflt : V) (f : V → V) (k : K) (m : list (K * V)) : list (K * V) :=
  match m with
  | [] => [(k, f dflt)]
  | (k', v) :: m' =>
      if decide (k = k') then (k', f v) :: m'
      else (k', v) :: dd_update dflt f k m'
  end.

(** [m.get(k)] on an association list. *)
Fixpoint dd_get {K V} `{EqDecision K} (k : K) (m : list (K * V)) : option V :=
  match m with
  | [] => None
  | (k', v) :: m' => if decide (k = k') then Some v else dd_get k m'
  end.

Definition keys {K V} (m : list (K * V)) : list K := m.*1.

(** ** Data model *)

(** One element of [data['list']] as decoded from JSON. *)
Record RawItem : Type := mkRawItem {
  item_dt : option Z;
  item_main : option (gmap string Z);
  item_components : option (gmap string float)
}.

(** The decoded response [data]. *)
Record Response : Type := mkResponse {
  resp_list : option (list RawItem)
}.

(** One element of [processed_data]. *)
Record Reading : Type := mkReading {
  r_date : Date;
  r_datetime : DateTime;
  r_aqi : Z;
  r_pollutants : list (string * float)
}.

(** One value of [daily_data]. *)
Record Bucket : Type := mkBucket {
  aqi_values : list Z;
  b_pollutants : list (string * list float)
}.

(** One element of [final_data]. *)
Record DailySummary : Type := mkDailySummary {
  date : Date;
  aqi : Z;
  aqi_description : string;
  pollutants : list (string * float)
}.

Definition CHANNELS : list string :=
  ["co"; "no"; "no2"; "o3"; "so2"; "pm2_5"; "pm10"; "nh3"].

(** ** Classification *)

Definition descriptions : gmap Z string :=
  <[1 := "Good"]> (<[2 := "Fair"]> (<[3 := "Moderate"]>
    (<[4 := "Poor"]> (<[5 := "Very Poor"]> ∅)))).

Definition get_aqi_description (aqi : Z) : string :=
  default "Unknown" (descriptions !! aqi).

(** ** Stable sort by date *)

Fixpoint insert_by_date (x : DailySummary) (l : list DailySummary)
    : list DailySummary :=
  match l with
  | [] => [x]
  | y :: l' =>
      if decide (date_le (date x) (date y)) then x :: y :: l'
      else y :: insert_by_date x l'
  end.

(** [l.sort(key=lambda x: strptime(x['date'], '%Y-%m-%d'))]. *)
Definition sort_by_date (l : list DailySummary) : list DailySummary :=
  foldr insert_by_date [] l.

(** ** The pipeline *)

Section Pipeline.

(** Offset of local time from UTC, in seconds, at a given instant. *)
Variable utcoffset : Z → Z.

(** [datetime.fromtimestamp(ts)]. *)
Definition fromtimestamp (ts : Z) : DateTime :=
  let t := ts + utcoffset ts in
  let s := t `mod` 86400 in
  mkDateTime (civil_from_days (t `div` 86400))
             (s `div` 3600) ((s `mod` 3600) `div` 60) (s `mod` 60).

(** [o[k]] for a key of a decoded object that holds a value of its own type. *)
Definition getfield {V} (k : string) (o : option V) : result V :=
  match o with
  | Some v => Ok v
  | None => Raise (KeyError k)
  end.

(** [m[k]]. *)
Definition getitem {V} (m : gmap string V) (k : string) : result V :=
  match m !! k with
  | Some v => Ok v
  | None => Raise (KeyError k)
  end.

(** [item['components'][c]]. *)
Definition component (item : RawItem) (c : string) : result float :=
  comps ← getfield "components" (item_components item);
  getitem comps c.

(** Lines 48-64: the body of the normalising loop. *)
Definition process_item (item : RawItem) : result Reading :=
  ts ← getfield "dt" (item_dt item);
  let dt := fromtimestamp ts in
  main ← getfield "main" (item_main item);
  a ← getitem main "aqi";
  co ← component item "co";
  no ← component item "no";
  no2 ← component item "no2";
  o3 ← component item "o3";
  so2 ← component item "so2";
  pm2_5 ← component item "pm2_5";
  pm10 ← component item "pm10";
  nh3 ← component item "nh3";
  mret (mkReading (dt_date dt) dt a
         [("co", co); ("no", no); ("no2", no2); ("o3", o3); ("so2", so2);
          ("pm2_5", pm2_5); ("pm10", pm10); ("nh3", nh3)]).

End Pipeline.

Definition empty_bucket : Bucket := mkBucket [] [].

(** [daily_data[date]['aqi_values'].append(a)]. *)
Definition append_aqi (d : Date) (a : Z)
    (daily_data : list (Date * Bucket)) : list (Date * Bucket) :=
  dd_update empty_bucket
    (λ b, mkBucket (aqi_values b ++ [a]) (b_pollutants b)) d daily_data.

(** [daily_data[date]['pollutants'][pollutant].append(value)]. *)
Definition append_pollutant (d : Date) (daily_data : list (Date * Bucket))
    (pv : string * float) : list (Date * Bucket) :=
  dd_update empty_bucket
    (λ b, mkBucket (aqi_values b)
            (dd_update [] (λ vs, vs ++ [pv.2]) pv.1 (b_pollutants b)))
    d daily_data.

(** Lines 72-77: the body of the grouping loop. *)
Definition add_reading (daily_data : list (Date * Bucket)) (item : Reading)
    : list (Date * Bucket) :=
  foldl (append_pollutant (r_date item))
        (append_aqi (r_date item) (r_aqi item) daily_data)
        (r_pollutants item).

(** ** Printing

    [print] appends one line to the output.  A computation of the reporting
    code is the list of lines it has printed together with its outcome: a
    value, or the exception that stopped it. *)

(** Exceptions of the reporting code and of the dashboard: those of the
    pipeline, the [ValueError] that [min] and [max] raise on an empty
    sequence, and whatever a call into pandas, plotly or streamlit
    raises. *)
Inductive report_exn : Type :=
  | Pipeline (e : exn)
  | ValueError
  | LibraryError (message : string).

Record io (A : Type) : Type := IO {
  printed : list string;
  outcome : report_exn + A
}.
Arguments IO {A} printed outcome.
Arguments printed {A} _.
Arguments outcome {A} _.

#[global] Instance io_ret : MRet io := λ A a, IO [] (inr a).
#[global] Instance io_bind : MBind io := λ A B f m,
  match m with
  | IO lines (inr a) =>
      match f a with
      | IO more r => IO (lines ++ more) r
      end
  | IO lines (inl e) => IO lines (inl e)
  end.

(** [print(line)]. *)
Definition print (line : string) : io unit := IO [line] (inr tt).

(** A computation of the pipeline, run inside the reporting code. *)
Definition lift {A} (r : result A) : io A :=
  match r with
  | Ok a => IO [] (inr a)
  | Raise e => IO [] (inl (Pipeline e))
  end.

(** A computation that prints nothing. *)
Definition silent {A} (r : report_exn + A) : io A := IO [] r.

(** [for x in l: body(x)]. *)
Fixpoint for_each {A} (body : A → io unit) (l : list A) : io unit :=
  match l with
  | [] => mret tt
  | x :: l' => body x;; for_each body l'
  end.

(** [m[k]] on a dictionary kept as an association list. *)
Definition alist_getitem {V} (m : list (string * V)) (k : string) : result V :=
  match dd_get k m with
  | Some v => Ok v
  | None => Raise (KeyError k)
  end.

(** [s * n] on strings. *)
Fixpoint str_mul (s : string) (n : nat) : string :=
  match n with
  | O => ""
  | S n' => s +:+ str_mul s n'
  end.

(** Decimal digits padded with zeros on the left to [width] characters. *)
Definition zfill (width : nat) (s : string) : string :=
  str_mul "0" (width - String.length s) +:+ s.

(** The text of the key ['date']: [strftime('%Y-%m-%d')] of a date. *)
Definition strftime_ymd (d : Date) : string :=
  zfill 4 (pretty (year d)) +:+ "-" +:+ zfill 2 (pretty (month d)) +:+ "-"
    +:+ zfill 2 (pretty (day d)).

(** The newline character. *)
Definition nl : string := String (Ascii.ascii_of_nat 10) "".

(** [min(l, key=key)] and [max(l, key=key)]: the first element whose key is
    smallest, respectively largest. *)
Definition py_min_by {A} (key : A → Z) (l : list A) : report_exn + A :=
  match l with
  | [] => inl ValueError
  | x :: l' =>
      inr (foldl (λ best y, if decide (key y < key best) then y else best) x l')
  end.

Definition py_max_by {A} (key : A → Z) (l : list A) : report_exn + A :=
  match l with
  | [] => inl ValueError
  | x :: l' =>
      inr (foldl (λ best y, if decide (key y > key best) then y else best) x l')
  end.

(** ** Averaging *)

Section Python.

(** The algorithm of [sum] on floats of the interpreter that runs the
    code. *)
Variable sum_version : SumVersion.

(** [sum] of a list of floats.  The start value is the int 0, to which the
    first element is added; the rest is added by the float loop.  The
    compensated loop adds its compensation at the end, unless that is zero
    or not finite. *)
Definition sum_float (l : list float) : float :=
  match l with
  | [] => 0%float
  | x :: l' =>
      let start := (0 + x)%float in
      match sum_version with
      | Plain => foldl PrimFloat.add start l'
      | Compensated =>
          let '(f, c) := foldl neumaier_step (start, 0%float) l' in
          if negb (is_zero c) && is_finite c then (f + c)%float else f
      end
  end.

(** Line 88: the mean of one channel, rounded. *)
Definition avg_pollutant (pv : string * list float) : result (string * float) :=
  m ← py_truediv_float (sum_float pv.2) (len pv.2);
  mret (pv.1, py_round2 m).

(** Lines 81-95: the body of the averaging loop. *)
Definition summarize_day (kv : Date * Bucket) : result DailySummary :=
  m ← py_truediv (inject_Z (sum_int (aqi_values kv.2)))
                 (inject_Z (len (aqi_values kv.2)));
  let avg_aqi := py_round m in
  avg_pollutants ← mapM avg_pollutant (b_pollutants kv.2);
  mret (mkDailySummary kv.1 avg_aqi (get_aqi_description avg_aqi)
          avg_pollutants).

(** Lines 66-100: grouping, averaging, labelling and sorting. *)
Definition aggregate (processed_data : list Reading)
    : result (list DailySummary) :=
  let daily_data := foldl add_reading [] processed_data in
  final_data ← mapM summarize_day daily_data;
  mret (sort_by_date final_data).

(** Lines 46-100 of [get_aqi_data], from the decoded response on. *)
Definition get_aqi_data (utcoffset : Z → Z) (data : Response)
    : result (list DailySummary) :=
  lst ← getfield "list" (resp_list data);
  processed_data ← mapM (process_item utcoffset) lst;
  aggregate processed_data.

(** ** Reference descriptions of the result *)

(** The readings of the day [d], in arrival order. *)
Definition day_readings (d : Date) (rs : list Reading) : list Reading :=
  filter (λ r, r_date r = d) rs.

(** The value a reading carries for the channel [c]. *)
Definition channel (c : string) (r : Reading) : float :=
  default 0%float (dd_get c (r_pollutants r)).

(** A reading as the normalising loop builds it: the eight channels, in the
    order of the dictionary display. *)
Definition wf_reading (r : Reading) : Prop :=
  keys (r_pollutants r) = CHANNELS.

(** What one reading appends to one channel list of its day. *)
Definition append_value (ps : list (string * list float)) (pv : string * float)
    : list (string * list float) :=
  dd_update [] (λ vs, vs ++ [pv.2]) pv.1 ps.

(** What one reading does to the bucket of its day. *)
Definition bucket_add (b : Bucket) (r : Reading) : Bucket :=
  mkBucket (aqi_values b ++ [r_aqi r])
           (foldl append_value (b_pollutants b) (r_pollutants r)).

(** The mean of the AQI codes of [rs], rounded to an integer. *)
Definition mean_aqi (rs : list Reading) : Z :=
  py_round (inject_Z (sum_int (r_aqi <$> rs)) / inject_Z (len rs))%Q.

(** The mean of the channel [c] over [rs], rounded to two decimals. *)
Definition mean_channel (c : string) (rs : list Reading) : float :=
  py_round2 (sum_float (channel c <$> rs) / float_of_Z (len rs))%float.

(** The summary of the day [d] whose readings are [rs]. *)
Definition day_summary (d : Date) (rs : list Reading) : DailySummary :=
  mkDailySummary d (mean_aqi rs) (get_aqi_description (mean_aqi rs))
    ((λ c, (c, mean_channel c rs)) <$> CHANNELS).

(** The days of [rs], in the order in which the grouping loop first sees
    them. *)
Definition day_keys (rs : list Reading) : list Date :=
  keys (foldl add_reading [] rs).

(** The sort key order, on summaries. *)
Definition by_date (x y : DailySummary) : Prop := date_le (date x) (date y).

(** ** Required fields of a raw record *)

(** The record [item] has every field that the normalising loop reads. *)
Definition complete (item : RawItem) : bool :=
  match item_dt item, item_main item, item_components item with
  | Some _, Some main, Some comps =>
      bool_decide (is_Some (main !! "aqi")) &&
      forallb (λ c, bool_decide (is_Some (comps !! c))) CHANNELS
  | _, _, _ => false
  end.

(** The key [k] is read by the normalising loop and absent from [item]. *)
Definition lacks (item : RawItem) (k : string) : bool :=
  if decide (k = "dt") then bool_decide (¬ is_Some (item_dt item))
  else if decide (k = "main") then bool_decide (¬ is_Some (item_main item))
  else if decide (k = "aqi") then
    match item_main item with
    | Some main => bool_decide (¬ is_Some (main !! "aqi"))
    | None => false
    end
  else if decide (k = "components") then
    bool_decide (¬ is_Some (item_components item))
  else
    match item_components item with
    | Some comps =>
        bool_decide (k ∈ CHANNELS) && bool_decide (¬ is_Some (comps !! k))
    | None => false
    end.

(** ** Sample inputs *)

Definition utc : Z → Z := λ _, 0.

(** Indian Standard Time, UTC+05:30. *)
Definition ist : Z → Z := λ _, 19800.

(** A raw record that carries the value [v] on every channel. *)
Definition sample_item (ts a : Z) (v : float) : RawItem :=
  mkRawItem (Some ts) (Some {["aqi" := a]})
    (Some (list_to_map ((λ c, (c, v)) <$> CHANNELS))).

(** A reading of the day [d] that carries the value [v] on every channel. *)
Definition sample_reading (d : Date) (a : Z) (v : float) : Reading :=
  mkReading d (mkDateTime d 0 0 0) a ((λ c, (c, v)) <$> CHANNELS).

(** Three days, newest first. *)
Definition reverse_days : list Reading :=
  [sample_reading (mkDate 2024 3 1) 4 30%float;
   sample_reading (mkDate 2024 2 29) 2 20%float;
   sample_reading (mkDate 2023 12 31) 1 10%float].

(** One day with the AQI codes 2, 3, 3, 4. *)
Definition day_2334 : list Reading :=
  [sample_reading (mkDate 2024 3 1) 2 5%float;
   sample_reading (mkDate 2024 3 1) 3 5%float;
   sample_reading (mkDate 2024 3 1) 3 5%float;
   sample_reading (mkDate 2024 3 1) 4 5%float].

(** One day with the values 10.0 and 20.0 on every channel. *)
Definition day_10_20 : list Reading :=
  [sample_reading (mkDate 2024 3 1) 1 10%float;
   sample_reading (mkDate 2024 3 1) 1 20%float].

(** A record whose pm2_5 (and every other channel) reads 0.123, that is
    the double nearest to 123/1000. *)
Definition item_three_decimals : RawItem :=
  sample_item 1700000000 2 (123 / 1000)%float.

(** A complete record. *)
Definition item_complete : RawItem := sample_item 1700000000 2 10%float.

(** What the normalising loop makes of [item_complete] under [ist]. *)
Definition reading_complete : Reading :=
  mkReading (mkDate 2023 11 15)
    (mkDateTime (mkDate 2023 11 15) 3 43 20) 2
    ((λ c, (c, 10%float)) <$> CHANNELS).

(** A record that lacks only the channel so2. *)
Definition item_without_so2 : RawItem :=
  mkRawItem (Some 1700003600) (Some {["aqi" := 3]})
    (Some (list_to_map
       [("co", 1); ("no", 1); ("no2", 1); ("o3", 1);
        ("pm2_5", 1); ("pm10", 1); ("nh3", 1)]%float)).

(** A bucket from which the channel so2 is absent, and one in which its
    sample sequence is empty.  The grouping loop builds neither. *)
Definition bucket_without_so2 : Bucket :=
  mkBucket [3]
    [("co", [1%float]); ("no", [1%float]); ("no2", [1%float]);
     ("o3", [1%float]); ("pm2_5", [1%float]); ("pm10", [1%float]);
     ("nh3", [1%float])].

Definition bucket_empty_so2 : Bucket :=
  mkBucket [3]
    [("co", [1%float]); ("no", [1%float]); ("no2", [1%float]);
     ("o3", [1%float]); ("so2", []); ("pm2_5", [1%float]);
     ("pm10", [1%float]); ("nh3", [1%float])].

(** ** Statements about a single reading *)

(** The summary of a day that consists of the one reading [r]: its AQI code
    and, for each of its values [v], [round(0 + v, 2)], where [0 + v] is the
    sum of the one sample. *)
Definition rounded_copy (r : Reading) : DailySummary :=
  mkDailySummary (r_date r) (r_aqi r) (get_aqi_description (r_aqi r))
    ((λ pv, (pv.1, py_round2 (0 + pv.2))) <$> r_pollutants r).

(** The summary [s] carries the AQI code and the values of [r] unchanged:
    each value of [s] compares equal ([==]) to the one of [r]. *)
Definition carries_unchanged (r : Reading) (s : DailySummary) : Prop :=
  aqi s = r_aqi r ∧
  ∀ c v, dd_get c (r_pollutants r) = Some v →
         ∃ v', dd_get c (pollutants s) = Some v' ∧ (v' =? v)%float = true.

(** ** Reporting: [print_aqi_summary] and the statistics of the script

    The text that Python gives a float, in an f-string without a format
    ([repr_float]) and under the format [.1f], is a parameter.  The latter
    is [format_1f] for the mean of the AQI values, which the model keeps as
    the exact quotient, and [format_1f_float] for a float. *)

(** The channels that [print_aqi_summary] prints. *)
Definition PRINTED_CHANNELS : list string := ["pm2_5"; "pm10"; "o3"; "no2"].

Section Report.

Variable repr_float : float → string.
Variable format_1f : Q → string.
Variable format_1f_float : float → string.

(** Lines 130-133: one line of a day's channel. *)
Definition print_channel (label : string) (day : DailySummary) (c : string)
    : io unit :=
  v ← lift (alist_getitem (pollutants day) c);
  print ("  " +:+ label +:+ ": " +:+ repr_float v +:+ " μg/m³").

(** Lines 129-134: the body of the loop of [print_aqi_summary]. *)
Definition print_day (day : DailySummary) : io unit :=
  print (strftime_ymd (date day) +:+ ": AQI " +:+ pretty (aqi day) +:+ " ("
           +:+ aqi_description day +:+ ")");;
  print_channel "PM2.5" day "pm2_5";;
  print_channel "PM10" day "pm10";;
  print_channel "O3" day "o3";;
  print_channel "NO2" day "no2";;
  print (str_mul "-" 30).

(** Lines 123-134. *)
Definition print_aqi_summary (aqi_data : list DailySummary) : io unit :=
  print ("AQI Data Summary (" +:+ pretty (length aqi_data) +:+ " days):");;
  print (str_mul "=" 50);;
  for_each print_day aqi_data.

(** Lines 157-165: the statistics that the script prints after the
    summary. *)
Definition print_statistics (aqi_data : list DailySummary) : io unit :=
  let aqi_values := aqi <$> aqi_data in
  pm25_values ←
    lift (mapM (λ day, alist_getitem (pollutants day) "pm2_5") aqi_data);
  print (nl +:+ "Statistics:");;
  avg_aqi ← lift (py_truediv (inject_Z (sum_int aqi_values))
                             (inject_Z (len aqi_values)));
  print ("Average AQI: " +:+ format_1f avg_aqi);;
  avg_pm25 ← lift (py_truediv_float (sum_float pm25_values)
                                    (len pm25_values));
  print ("Average PM2.5: " +:+ format_1f_float avg_pm25 +:+ " μg/m³");;
  best ← silent (py_min_by aqi aqi_data);
  lowest ← silent (py_min_by id aqi_values);
  print ("Best day: " +:+ strftime_ymd (date best) +:+ " (AQI "
           +:+ pretty lowest +:+ ")");;
  worst ← silent (py_max_by aqi aqi_data);
  highest ← silent (py_max_by id aqi_values);
  print ("Worst day: " +:+ strftime_ymd (date worst) +:+ " (AQI "
           +:+ pretty highest +:+ ")").

End Report.

(** The summary [s] has the four channels that [print_aqi_summary] reads. *)
Definition has_printed_channels (s : DailySummary) : Prop :=
  Forall (λ c, is_Some (dd_get c (pollutants s))) PRINTED_CHANNELS.

(** What the averaging loop makes of [bucket_without_so2]. *)
Definition summary_without_so2 : DailySummary :=
  mkDailySummary (mkDate 2024 3 1) 3 "Moderate"
    [("co", 1); ("no", 1); ("no2", 1); ("o3", 1);
     ("pm2_5", 1); ("pm10", 1); ("nh3", 1)]%float.

(** The pm2_5 value of a summary that has one. *)
Definition pm25_of (s : DailySummary) : float :=
  default 0%float (dd_get "pm2_5" (pollutants s)).

(** The mean of the daily AQI values, as line 162 computes it. *)
Definition average_aqi (aqi_data : list DailySummary) : Q :=
  (inject_Z (sum_int (aqi <$> aqi_data)) / inject_Z (len (aqi <$> aqi_data)))%Q.

(** A response of two days whose AQI codes average to 2 and to 4. *)
Definition two_day_response : Response :=
  mkResponse (Some [sample_item 1700000000 1 10%float;
                    sample_item 1700003600 3 20%float;
                    sample_item 1700090000 4 30%float]).

Definition two_day_output : list DailySummary :=
  [mkDailySummary (mkDate 2023 11 15) 2 "Fair"
     ((λ c, (c, 15%float)) <$> CHANNELS);
   mkDailySummary (mkDate 2023 11 16) 4 "Poor"
     ((λ c, (c, 30%float)) <$> CHANNELS)].

(** ** The dashboard: [app.py], lines 33-90

    The page is the sequence of the elements that the script shows once
    the button's state and the outcome of [get_aqi_data] are known: the
    hint of line 90, the warning of line 39, the note of success of line
    41, the three metrics of lines 53-60, the charts and the table of lines
    62-85, and the error box of line 88, which shows whatever exception the
    [try] of lines 34-85 has raised.  [df['aqi'].mean()] is the mean of the
    column; [idxmin] and [idxmax] give the first row that holds the lowest,
    respectively the highest, value.  The metrics are kept as values,
    before they are formatted; of charts that raise, the part drawn before
    the exception is not kept. *)
Inductive Element : Type :=
  | Info
  | Warning
  | Success
  | Metrics (average : Q) (label : string) (best_day worst_day : DailySummary)
  | Charts
  | Error (e : report_exn).

Section Dashboard.

(** Lines 43-45 build the data frame; lines 62-85 draw the two charts and
    the table.  Both stretches call into pandas, plotly and streamlit only;
    whether such a stretch returns ([None]) or raises is a parameter. *)
Variable build_frame : list DailySummary → option report_exn.
Variable draw_charts : list DailySummary → option report_exn.

Definition page (clicked : bool) (fetched : result (list DailySummary))
    : list Element :=
  if clicked then
    match fetched with
    | Raise e => [Error (Pipeline e)]
    | Ok [] => [Warning]
    | Ok aqi_data =>
        Success ::
        match build_frame aqi_data with
        | Some e => [Error e]
        | None =>
            let avg_aqi := average_aqi aqi_data in
            let label := get_aqi_description (py_round avg_aqi) in
            match py_min_by aqi aqi_data, py_max_by aqi aqi_data with
            | inr best_day, inr worst_day =>
                Metrics avg_aqi label best_day worst_day ::
                match draw_charts aqi_data with
                | None => [Charts]
                | Some e => [Error e]
                end
            | inl e, _ => [Error e]
            | _, inl e => [Error e]
            end
        end
    end
  else [Info].

End Dashboard.

(** ** The keys the normalising loop reads *)

(** The keys of a raw record, in the order in which lines 49-62 read them. *)
Definition REQUIRED_KEYS : list string :=
  ["dt"; "main"; "aqi"; "components"] ++ CHANNELS.

(** The first key, in reading order, that [item] lacks. *)
Definition first_missing (item : RawItem) : option string :=
  List.find (lacks item) REQUIRED_KEYS.

(** Two days whose readings arrive interleaved, and the same readings day
    by day. *)
Definition interleaved_days : list Reading :=
  [sample_reading (mkDate 2024 3 1) 2 10%float;
   sample_reading (mkDate 2024 3 2) 5 3.5%float;
   sample_reading (mkDate 2024 3 1) 3 20%float].

Definition grouped_days : list Reading :=
  [sample_reading (mkDate 2024 3 2) 5 3.5%float;
   sample_reading (mkDate 2024 3 1) 2 10%float;
   sample_reading (mkDate 2024 3 1) 3 20%float].

(** A record that lacks both the timestamp and the channel so2. *)
Definition item_without_dt_so2 : RawItem :=
  mkRawItem None (Some {["aqi" := 3]})
    (Some (list_to_map
       [("co", 1); ("no", 1); ("no2", 1); ("o3", 1);
        ("pm2_5", 1); ("pm10", 1); ("nh3", 1)]%float)).

(** One day with the AQI codes 3 and 4. *)
Definition day_3_4 : list Reading :=
  [sample_reading (mkDate 2024 3 1) 3 5%float;
   sample_reading (mkDate 2024 3 1) 4 5%float].

(** * Properties *)

(** ** The exception monad *)

Lemma bind_Ok_inv {A B} (m : result A) (f : A → result B) (b : B) :
  m ≫= f = Ok b → ∃ a, m = Ok a ∧ f a = Ok b.
Proof. destruct m as [a|e]; simpl; [eauto | discriminate]. Qed.

Lemma mapM_Ok_fmap {A B} (f : A → result B) (g : A → B) (l : list A) :
  Forall (λ x, f x = Ok (g x)) l → mapM f l = Ok (g <$> l).
Proof.
  induction 1 as [|x l Hx _ IH]; [reflexivity|].
  simpl. rewrite Hx. simpl. rewrite IH. reflexivity.
Qed.

Lemma mapM_Ok_Forall2 {A B} (f : A → result B) (l : list A) (k : list B) :
  mapM f l = Ok k ↔ Forall2 (λ x y, f x = Ok y) l k.
Proof.
  split.
  - revert k. induction l as [|x l IH]; intros k Hk; simpl in Hk.
    + injection Hk as <-. constructor.
    + apply bind_Ok_inv in Hk as (y & Hy & Hk).
      apply bind_Ok_inv in Hk as (k' & Hk' & Hk).
      injection Hk as <-. constructor; auto.
  - induction 1 as [|x y l k Hxy _ IH]; [reflexivity|].
    simpl. rewrite Hxy. simpl. rewrite IH. reflexivity.
Qed.

(** The first element on which [f] raises decides what [mapM f] raises. *)
Lemma mapM_Raise {A B} (f : A → result B) (pre post : list A) (x : A) e :
  Forall (λ y, ∃ v, f y = Ok v) pre → f x = Raise e →
  mapM f (pre ++ x :: post) = Raise e.
Proof.
  induction 1 as [|y pre [v Hv] _ IH]; intros Hx; simpl.
  - rewrite Hx. reflexivity.
  - rewrite Hv. simpl. rewrite (IH Hx). reflexivity.
Qed.

Lemma mapM_Raise_inv {A B} (f : A → result B) (l : list A) e :
  mapM f l = Raise e →
  ∃ pre x post, l = pre ++ x :: post ∧
    Forall (λ y, ∃ v, f y = Ok v) pre ∧ f x = Raise e.
Proof.
  induction l as [|y l IH]; simpl; [discriminate|].
  destruct (f y) as [v|e'] eqn:Hy; simpl.
  - destruct (mapM f l) as [k|e'] eqn:Hl; simpl; [discriminate|].
    intros [= ->]. destruct (IH eq_refl) as (pre & x & post & -> & Hpre & Hx).
    exists (y :: pre), x, post. split_and!; [done| |done].
    constructor; eauto.
  - intros [= ->]. exists [], y, l. split_and!; [done|constructor|done].
Qed.

(** ** Dictionaries *)

Section DefaultDict.
Context {K V : Type} `{EqDecision K}.
Implicit Types (m : list (K * V)) (k : K) (f : V → V).

Lemma dd_get_update_eq dflt f k m :
  dd_get k (dd_update dflt f k m) = Some (f (default dflt (dd_get k m))).
Proof.
  induction m as [|[k' v] m IH]; simpl.
  - rewrite decide_True by done. reflexivity.
  - destruct (decide (k = k')) as [->|Hne]; simpl.
    + rewrite decide_True by done. reflexivity.
    + rewrite decide_False by done. exact IH.
Qed.

Lemma dd_get_update_ne dflt f k k' m :
  k ≠ k' → dd_get k' (dd_update dflt f k m) = dd_get k' m.
Proof.
  intros Hne. induction m as [|[k0 v] m IH]; simpl.
  - rewrite decide_False by done. reflexivity.
  - destruct (decide (k = k0)) as [->|Hk]; simpl.
    + rewrite !decide_False by done. reflexivity.
    + destruct (decide (k' = k0)); [reflexivity | exact IH].
Qed.

Lemma keys_dd_update_in dflt f k m :
  k ∈ keys m → keys (dd_update dflt f k m) = keys m.
Proof.
  unfold keys. induction m as [|[k' v] m IH]; simpl.
  - intros []%elem_of_nil.
  - intros Hin. destruct (decide (k = k')) as [->|Hne]; [reflexivity|].
    simpl. f_equal. apply IH. apply elem_of_cons in Hin as [?|?]; done.
Qed.

Lemma keys_dd_update_notin dflt f k m :
  k ∉ keys m → keys (dd_update dflt f k m) = keys m ++ [k].
Proof.
  unfold keys. induction m as [|[k' v] m IH]; simpl; [reflexivity|].
  intros [Hne Hin]%not_elem_of_cons. rewrite decide_False by done.
  simpl. f_equal. by apply IH.
Qed.

Lemma keys_dd_update dflt f k m :
  keys (dd_update dflt f k m) =
    if decide (k ∈ keys m) then keys m else keys m ++ [k].
Proof.
  case_decide; auto using keys_dd_update_in, keys_dd_update_notin.
Qed.

Lemma elem_of_keys_dd_update dflt f k k' m :
  k' ∈ keys (dd_update dflt f k m) ↔ k' = k ∨ k' ∈ keys m.
Proof.
  rewrite keys_dd_update. case_decide as Hin.
  - split; [auto | intros [->|?]; done].
  - rewrite elem_of_app, list_elem_of_singleton. tauto.
Qed.

Lemma dd_get_elem_of k (v : V) m :
  NoDup (keys m) → (k, v) ∈ m ↔ dd_get k m = Some v.
Proof.
  unfold keys. induction m as [|[k' v'] m IH]; simpl; intros Hnd.
  - split; [intros []%elem_of_nil | discriminate].
  - apply NoDup_cons in Hnd as [Hk' Hnd]. rewrite elem_of_cons.
    case_decide as Hk.
    + subst k'. split; [|intros [= ->]; by left].
      intros [[= ->]|Hin]; [done|].
      exfalso. apply Hk'. apply list_elem_of_fmap. by exists (k, v).
    + rewrite <- (IH Hnd). split; [|tauto].
      intros [[= -> ->]|?]; done.
Qed.

End DefaultDict.

(** ** Grouping by day *)

Lemma append_pollutants_get d dd b pvs :
  dd_get d dd = Some b →
  dd_get d (foldl (append_pollutant d) dd pvs) =
    Some (mkBucket (aqi_values b) (foldl append_value (b_pollutants b) pvs)).
Proof.
  revert dd b. induction pvs as [|pv pvs IH]; intros dd b Hb; simpl.
  - rewrite Hb. by destruct b.
  - rewrite (IH _ (mkBucket (aqi_values b)
                     (append_value (b_pollutants b) pv))); [reflexivity|].
    unfold append_pollutant. rewrite dd_get_update_eq, Hb. reflexivity.
Qed.

Lemma append_pollutants_get_ne d d' dd pvs :
  d ≠ d' → dd_get d' (foldl (append_pollutant d) dd pvs) = dd_get d' dd.
Proof.
  intros Hne. revert dd. induction pvs as [|pv pvs IH]; intros dd; simpl.
  - reflexivity.
  - rewrite IH. unfold append_pollutant. by rewrite dd_get_update_ne.
Qed.

Lemma append_pollutants_keys d dd pvs :
  d ∈ keys dd → keys (foldl (append_pollutant d) dd pvs) = keys dd.
Proof.
  revert dd. induction pvs as [|pv pvs IH]; intros dd Hin; simpl.
  - reflexivity.
  - unfold append_pollutant at 2.
    rewrite IH; rewrite keys_dd_update_in; done.
Qed.

Lemma add_reading_get_eq dd r :
  dd_get (r_date r) (add_reading dd r) =
    Some (bucket_add (default empty_bucket (dd_get (r_date r) dd)) r).
Proof.
  unfold add_reading.
  rewrite (append_pollutants_get _ _
             (mkBucket (aqi_values (default empty_bucket
                                      (dd_get (r_date r) dd)) ++ [r_aqi r])
                (b_pollutants (default empty_bucket (dd_get (r_date r) dd)))));
    [reflexivity|].
  unfold append_aqi. rewrite dd_get_update_eq. reflexivity.
Qed.

Lemma add_reading_get_ne dd r d :
  r_date r ≠ d → dd_get d (add_reading dd r) = dd_get d dd.
Proof.
  intros Hne. unfold add_reading, append_aqi.
  rewrite append_pollutants_get_ne by done. by rewrite dd_get_update_ne.
Qed.

Lemma keys_add_reading dd r :
  keys (add_reading dd r) =
    if decide (r_date r ∈ keys dd) then keys dd else keys dd ++ [r_date r].
Proof.
  unfold add_reading, append_aqi. rewrite append_pollutants_keys.
  - apply keys_dd_update.
  - apply elem_of_keys_dd_update. by left.
Qed.

Lemma group_get d rs dd :
  dd_get d (foldl add_reading dd rs) =
    match day_readings d rs with
    | [] => dd_get d dd
    | _ :: _ =>
        Some (foldl bucket_add (default empty_bucket (dd_get d dd))
                (day_readings d rs))
    end.
Proof.
  unfold day_readings. revert dd.
  induction rs as [|r rs IH]; intros dd; simpl; [reflexivity|].
  rewrite IH. rewrite filter_cons. case_decide as Hd.
  - subst d. rewrite add_reading_get_eq. simpl.
    by destruct (filter _ rs).
  - by rewrite add_reading_get_ne.
Qed.

Lemma group_keys_NoDup rs dd :
  NoDup (keys dd) → NoDup (keys (foldl add_reading dd rs)).
Proof.
  revert dd. induction rs as [|r rs IH]; intros dd Hnd; simpl; [done|].
  apply IH. rewrite keys_add_reading. case_decide as Hin; [done|].
  apply NoDup_app. split_and!; [done| |apply NoDup_singleton].
  intros x Hx ->%list_elem_of_singleton. done.
Qed.

Lemma group_keys_elem d rs dd :
  d ∈ keys (foldl add_reading dd rs) ↔ d ∈ keys dd ∨ d ∈ r_date <$> rs.
Proof.
  revert dd. induction rs as [|r rs IH]; intros dd; simpl.
  - rewrite elem_of_nil. tauto.
  - rewrite IH, keys_add_reading, elem_of_cons.
    case_decide as Hin.
    + split; [tauto|]. intros [?|[->|?]]; auto.
    + rewrite elem_of_app, list_elem_of_singleton. tauto.
Qed.

(** ** The content of a bucket *)

Lemma bucket_aqi_values b rs :
  aqi_values (foldl bucket_add b rs) = aqi_values b ++ (r_aqi <$> rs).
Proof.
  revert b. induction rs as [|r rs IH]; intros b; simpl.
  - by rewrite app_nil_r.
  - rewrite IH. simpl. by rewrite <- app_assoc.
Qed.

Lemma bucket_pollutants rs :
  Forall wf_reading rs → rs ≠ [] →
  b_pollutants (foldl bucket_add empty_bucket rs) =
    (λ c, (c, channel c <$> rs)) <$> CHANNELS.
Proof.
  induction rs as [|r rs IH] using rev_ind; [done|].
  intros [Hrs Hr%Forall_inv]%Forall_app _.
  rewrite foldl_app. simpl.
  unfold wf_reading, keys, CHANNELS in Hr.
  destruct r as [d dt a ps]. simpl in *.
  do 8 (destruct ps as [|[? ?] ps]; [by simpl in Hr|]).
  destruct ps; [|by simpl in Hr]. simpl in Hr. simplify_eq.
  destruct rs as [|r0 rs]; [reflexivity|].
  rewrite IH by done.
  unfold CHANNELS. rewrite !fmap_cons, !fmap_app. reflexivity.
Qed.

(** ** Division and rounding *)

Lemma len_fmap {A B} (f : A → B) (l : list A) : len (f <$> l) = len l.
Proof. unfold len. by rewrite length_fmap. Qed.

Lemma len_pos {A} (l : list A) : l ≠ [] → 0 < len l.
Proof. destruct l; [done|]. unfold len. simpl. lia. Qed.

Lemma py_truediv_Ok (a b : Q) : ¬ (b == 0)%Q → py_truediv a b = Ok (a / b)%Q.
Proof.
  intros Hb. unfold py_truediv.
  destruct (Qeq_bool b 0) eqn:E; [|reflexivity].
  apply Qeq_bool_iff in E. done.
Qed.

Lemma py_truediv_len {A} (a : Q) (l : list A) :
  l ≠ [] → py_truediv a (inject_Z (len l)) = Ok (a / inject_Z (len l))%Q.
Proof.
  intros Hl%len_pos. apply py_truediv_Ok.
  unfold Qeq. simpl. lia.
Qed.

Lemma py_truediv_Ok_inv (a b q : Q) :
  py_truediv a b = Ok q → ¬ (b == 0)%Q ∧ q = (a / b)%Q.
Proof.
  unfold py_truediv. destruct (Qeq_bool b 0) eqn:E; [discriminate|].
  intros [= <-]. split; [|reflexivity]. by apply Qeq_bool_neq.
Qed.

Lemma py_round_comp (x y : Q) : (x == y)%Q → py_round x = py_round y.
Proof.
  intros Hxy. unfold py_round.
  rewrite (Qfloor_comp _ _ Hxy).
  assert (x - inject_Z (Qfloor y) == y - inject_Z (Qfloor y))%Q as ->
    by (rewrite Hxy; reflexivity).
  reflexivity.
Qed.

Lemma py_round_inject_Z (n : Z) : py_round (inject_Z n) = n.
Proof.
  unfold py_round. rewrite Qfloor_Z.
  assert (Qcompare (inject_Z n - inject_Z n) (1 # 2) = Lt) as ->;
    [|reflexivity].
  apply Qlt_alt.
  assert (inject_Z n - inject_Z n == 0)%Q as -> by ring. reflexivity.
Qed.

(** Rounding to the nearest integer stays between integer bounds. *)
Lemma py_round_bounds (a b : Z) (x : Q) :
  (inject_Z a <= x)%Q → (x <= inject_Z b)%Q → a ≤ py_round x ≤ b.
Proof.
  intros Ha Hb.
  assert (a ≤ Qfloor x) as Hfa.
  { rewrite <- (Qfloor_Z a). by apply Qfloor_resp_le. }
  assert (Qfloor x ≤ b) as Hfb.
  { rewrite <- (Qfloor_Z b). by apply Qfloor_resp_le. }
  assert (Qfloor x = b → Qcompare (x - inject_Z (Qfloor x)) (1 # 2) = Lt)
    as Htop.
  { intros Hf. apply Qlt_alt. rewrite Hf.
    apply Qle_lt_trans with (y := 0%Q); [|reflexivity].
    apply (Qplus_le_l _ _ (inject_Z b)). ring_simplify. exact Hb. }
  unfold py_round.
  destruct (decide (Qfloor x = b)) as [Hf|Hf].
  - rewrite (Htop Hf). lia.
  - destruct (Qcompare (x - inject_Z (Qfloor x)) (1 # 2));
      [destruct (Z.even (Qfloor x))| |]; lia.
Qed.

(** ** Float arithmetic *)

Lemma py_truediv_float_len {A} (a : float) (l : list A) :
  l ≠ [] → py_truediv_float a (len l) = Ok (a / float_of_Z (len l))%float.
Proof.
  intros Hl%len_pos. unfold py_truediv_float. by rewrite decide_False by lia.
Qed.

(** Adding a float to the zero from which [sum] starts returns the float,
    except that it turns the negative zero into the positive one. *)
Lemma add_zero_l (v : float) : v ≠ (-0)%float → (0 + v)%float = v.
Proof.
  intros Hv. apply Prim2SF_inj. rewrite add_spec.
  change (Prim2SF 0) with (S754_zero false).
  destruct (Prim2SF v) as [ [ | ] | s | | s m e ] eqn:E; try reflexivity.
  exfalso. apply Hv. apply Prim2SF_inj. by rewrite E.
Qed.

Lemma shr_fexp_canonical (m e : Z) :
  Z.max (Zdigits2 m + e - 53) (-1074) = e →
  shr_fexp prec emax m e loc_Exact
  = ({| shr_m := m; shr_r := false; shr_s := false |}, e).
Proof.
  intros H. unfold shr_fexp, fexp, SpecFloat.emin, prec, emax.
  replace (Z.max (Zdigits2 m + e - 53) (3 - 1024 - 53) - e) with 0 by lia.
  reflexivity.
Qed.

(** Division by 1.0, on the specification of binary64 division. *)
Lemma SFdiv_one (s : bool) (m : positive) (e : Z) :
  valid_binary (S754_finite s m e) = true →
  SF64div (S754_finite s m e) (S754_finite false 4503599627370496 (-52))
  = S754_finite s m e.
Proof.
  unfold SpecFloat.valid_binary, bounded, canonical_mantissa, fexp,
    SpecFloat.emin, prec, emax.
  intros [Hc He]%andb_prop. apply Z.eqb_eq in Hc. apply Z.leb_le in He.
  set (d := Zpos (digits2_pos m)) in *.
  assert (Hd : 1 ≤ d) by (unfold d; lia).
  unfold SF64div, SFdiv, SFdiv_core_binary.
  change (Zdigits2 (Zpos m)) with d.
  change (Zdigits2 4503599627370496) with 53.
  unfold fexp, SpecFloat.emin, prec, emax.
  destruct (decide (e = -1074)) as [->|Hne].
  - (* smallest exponent: the quotient is the mantissa *)
    assert (Hd53 : d ≤ 53) by lia.
    replace (Z.min (Z.max (d + -1074 - (53 + -52) - 53) (3 - 1024 - 53))
               (-1074 - -52)) with (-1074) by lia.
    change (-1074 - -52 - -1074) with 52.
    cbv beta iota zeta.
    assert (Hq : Z.div_eucl (Z.shiftl (Zpos m) 52) 4503599627370496
                 = (Zpos m, 0)).
    { pose proof (Z.div_eucl_eq (Z.shiftl (Zpos m) 52) 4503599627370496
                    ltac:(lia)) as H.
      pose proof (Z.mod_pos_bound (Z.shiftl (Zpos m) 52) 4503599627370496
                    ltac:(lia)) as Hb.
      unfold Z.modulo in Hb.
      destruct (Z.div_eucl _ _) as [q r]. rewrite Z.shiftl_mul_pow2 in H by lia.
      change (2 ^ 52) with 4503599627370496 in H. f_equal; lia. }
    rewrite Hq.
    unfold binary_round_aux. cbn [new_location Z.even new_location_even Z.eqb].
    rewrite shr_fexp_canonical by (cbn [Zdigits2]; fold d; lia).
    cbn [shr_m loc_of_shr_record round_nearest_even].
    rewrite shr_fexp_canonical by (cbn [Zdigits2]; fold d; lia).
    cbn [shr_m]. by rewrite xorb_false_r.
  - (* normal numbers: the quotient is twice the mantissa, shifted back *)
    assert (Hd53 : d = 53) by lia.
    rewrite Hd53 in *.
    replace (Z.min (Z.max (53 + e - (53 + -52) - 53) (3 - 1024 - 53))
               (e - -52)) with (e - 1) by lia.
    replace (e - -52 - (e - 1)) with 53 by lia.
    cbv beta iota zeta.
    assert (Hq : Z.div_eucl (Z.shiftl (Zpos m) 53) 4503599627370496
                 = (Zpos m~0, 0)).
    { pose proof (Z.div_eucl_eq (Z.shiftl (Zpos m) 53) 4503599627370496
                    ltac:(lia)) as H.
      pose proof (Z.mod_pos_bound (Z.shiftl (Zpos m) 53) 4503599627370496
                    ltac:(lia)) as Hb.
      unfold Z.modulo in Hb.
      destruct (Z.div_eucl _ _) as [q r]. rewrite Z.shiftl_mul_pow2 in H by lia.
      change (2 ^ 53) with 9007199254740992 in H. f_equal; lia. }
    rewrite Hq.
    unfold binary_round_aux. cbn [new_location Z.even new_location_even Z.eqb].
    unfold shr_fexp at 1. unfold fexp, SpecFloat.emin.
    change (Zdigits2 (Zpos m~0)) with (Zpos (Pos.succ (digits2_pos m))).
    rewrite Pos2Z.inj_succ. fold d. rewrite Hd53.
    replace (Z.max (Z.succ 53 + (e - 1) - 53) (3 - 1024 - 53) - (e - 1))
      with 1 by lia.
    cbn [shr_record_of_loc shr SpecFloat.iter_pos shr_1 orb shr_m
         loc_of_shr_record round_nearest_even].
    replace (e - 1 + 1) with e by lia.
    rewrite shr_fexp_canonical by (cbn [Zdigits2]; fold d; lia).
    cbn [shr_m]. rewrite xorb_false_r.
    destruct (Z.leb_spec e (1024 - 53)); [done|lia].
Qed.

(** Dividing a float by 1.0 returns the float. *)
Lemma div_one (v : float) : (v / 1)%float = v.
Proof.
  apply Prim2SF_inj. rewrite div_spec.
  change (Prim2SF 1) with (S754_finite false 4503599627370496 (-52)).
  pose proof (Prim2SF_valid v) as Hv.
  destruct (Prim2SF v) as [s|s| |s m e] eqn:E.
  - simpl. by rewrite xorb_false_r.
  - simpl. by rewrite xorb_false_r.
  - done.
  - by apply SFdiv_one.
Qed.

(** The sum of one sample, under either algorithm. *)
Lemma sum_float_one (v : float) : sum_float [v] = (0 + v)%float.
Proof. unfold sum_float. by destruct sum_version. Qed.

(** ** Averaging *)

Lemma summarize_day_bucket d rs :
  Forall wf_reading rs → rs ≠ [] →
  summarize_day (d, foldl bucket_add empty_bucket rs) = Ok (day_summary d rs).
Proof.
  intros Hwf Hne. unfold summarize_day. simpl.
  rewrite bucket_aqi_values, bucket_pollutants by done. simpl.
  assert (r_aqi <$> rs ≠ []) as Ha by (by destruct rs).
  rewrite py_truediv_len by done. simpl.
  unfold avg_pollutant. simpl.
  assert (∀ c, channel c <$> rs ≠ []) as Hc by (by destruct rs).
  rewrite !py_truediv_float_len by done. simpl.
  unfold day_summary, mean_aqi, mean_channel.
  rewrite !len_fmap. reflexivity.
Qed.

(** What the averaging step returns for any bucket on which it does not
    raise. *)
Lemma summarize_day_Ok_inv d b s :
  summarize_day (d, b) = Ok s →
  date s = d ∧ aqi_values b ≠ [] ∧
  aqi s = py_round (inject_Z (sum_int (aqi_values b))
                    / inject_Z (len (aqi_values b)))%Q ∧
  aqi_description s = get_aqi_description (aqi s).
Proof.
  unfold summarize_day. simpl. intros H.
  apply bind_Ok_inv in H as (m & Hm & H).
  apply bind_Ok_inv in H as (ps & Hps & H).
  injection H as <-. simpl.
  destruct (aqi_values b) eqn:E; [discriminate|].
  apply py_truediv_Ok_inv in Hm as [_ ->]. done.
Qed.

(** ** The dictionary built by the grouping loop *)

Lemma day_keys_NoDup rs : NoDup (day_keys rs).
Proof. apply group_keys_NoDup. constructor. Qed.

Lemma elem_of_day_keys d rs : d ∈ day_keys rs ↔ d ∈ r_date <$> rs.
Proof.
  unfold day_keys. rewrite group_keys_elem. simpl.
  rewrite elem_of_nil. tauto.
Qed.

Lemma daily_data_buckets rs d b :
  (d, b) ∈ foldl add_reading [] rs →
  day_readings d rs ≠ [] ∧
  b = foldl bucket_add empty_bucket (day_readings d rs).
Proof.
  intros Hin. apply dd_get_elem_of in Hin; [|apply day_keys_NoDup].
  rewrite group_get in Hin. simpl in Hin.
  destruct (day_readings d rs) eqn:E; [discriminate|].
  by injection Hin as <-.
Qed.

Lemma day_readings_wf d rs :
  Forall wf_reading rs → Forall wf_reading (day_readings d rs).
Proof.
  rewrite !Forall_forall. intros H r [_ Hr]%list_elem_of_filter. auto.
Qed.

(** ** Sorting *)

Lemma date_le_total (a b : Date) : date_le a b ∨ date_le b a.
Proof. unfold date_le. lia. Qed.

Lemma date_le_trans (a b c : Date) : date_le a b → date_le b c → date_le a c.
Proof. unfold date_le. lia. Qed.

Lemma date_le_lt (a b : Date) : date_le a b → a ≠ b → date_lt a b.
Proof.
  destruct a as [y1 m1 d1], b as [y2 m2 d2]. unfold date_le, date_lt. simpl.
  intros Hle Hne.
  assert (¬ (y1 = y2 ∧ m1 = m2 ∧ d1 = d2)) by (intros (-> & -> & ->); done).
  lia.
Qed.

Lemma insert_by_date_Permutation x l : insert_by_date x l ≡ₚ x :: l.
Proof.
  induction l as [|y l IH]; simpl; [done|].
  case_decide; [done|]. rewrite IH. apply Permutation_swap.
Qed.

Lemma sort_by_date_Permutation l : sort_by_date l ≡ₚ l.
Proof.
  induction l as [|x l IH]; simpl; [done|].
  by rewrite insert_by_date_Permutation, IH.
Qed.

Lemma insert_by_date_sorted x l :
  StronglySorted by_date l → StronglySorted by_date (insert_by_date x l).
Proof.
  induction 1 as [|y l Hl IH Hy]; simpl.
  - repeat constructor.
  - case_decide as Hxy.
    + constructor; [by constructor|]. constructor; [done|].
      eapply Forall_impl; [exact Hy|]. intros z Hz.
      unfold by_date in *. eauto using date_le_trans.
    + constructor; [done|]. rewrite insert_by_date_Permutation.
      constructor; [|done]. unfold by_date.
      destruct (date_le_total (date x) (date y)); done.
Qed.

Lemma sort_by_date_sorted l : StronglySorted by_date (sort_by_date l).
Proof.
  induction l as [|x l IH]; simpl; [constructor|].
  by apply insert_by_date_sorted.
Qed.

(** Sorted summaries with pairwise distinct dates are strictly ascending. *)
Lemma sorted_NoDup_strict l :
  StronglySorted by_date l → NoDup (date <$> l) →
  StronglySorted date_lt (date <$> l).
Proof.
  induction 1 as [|x l Hl IH Hx]; simpl; [constructor|].
  intros [Hnin Hnd]%NoDup_cons. constructor; [auto|].
  apply Forall_fmap. apply Forall_forall. intros y Hy. simpl.
  apply date_le_lt.
  - rewrite Forall_forall in Hx. by apply Hx.
  - intros Heq. apply Hnin. rewrite Heq. by apply list_elem_of_fmap_2.
Qed.

(** ** Normalisation *)

Lemma process_item_wf tz item r : process_item tz item = Ok r → wf_reading r.
Proof.
  unfold process_item. intros H.
  repeat (apply bind_Ok_inv in H as (? & _ & H)).
  injection H as <-. reflexivity.
Qed.

Lemma mapM_process_item_wf tz lst rs :
  mapM (process_item tz) lst = Ok rs → Forall wf_reading rs.
Proof.
  intros H%mapM_Ok_Forall2. induction H; constructor;
    eauto using process_item_wf.
Qed.

Lemma process_item_complete tz item :
  complete item = true → ∃ r, process_item tz item = Ok r.
Proof.
  unfold complete, process_item, component, getitem.
  destruct (item_dt item) as [ts|]; [|discriminate].
  destruct (item_main item) as [main|]; [|discriminate].
  destruct (item_components item) as [comps|]; [|discriminate].
  simpl. rewrite !andb_true_iff, !bool_decide_eq_true.
  intros ([a ->] & [? ->] & [? ->] & [? ->] & [? ->] & [? ->] & [? ->]
          & [? ->] & [? ->] & _).
  simpl. eauto.
Qed.

Lemma process_item_incomplete tz item :
  complete item = false →
  ∃ k, lacks item k = true ∧ process_item tz item = Raise (KeyError k).
Proof.
  unfold complete, process_item, component, getitem, lacks.
  destruct (item_dt item) as [ts|]; simpl;
    [|intros _; by exists "dt"].
  destruct (item_main item) as [main|]; simpl;
    [|intros _; by exists "main"].
  destruct (main !! "aqi") as [a|] eqn:Ea; simpl;
    [|intros _; exists "aqi"; split; [by vm_compute|done]].
  destruct (item_components item) as [comps|]; simpl;
    [|intros _; by exists "components"].
  destruct (comps !! "co") eqn:E1; simpl;
    [|intros _; exists "co"; rewrite E1; split; [by vm_compute|done]].
  destruct (comps !! "no") eqn:E2; simpl;
    [|intros _; exists "no"; rewrite E2; split; [by vm_compute|done]].
  destruct (comps !! "no2") eqn:E3; simpl;
    [|intros _; exists "no2"; rewrite E3; split; [by vm_compute|done]].
  destruct (comps !! "o3") eqn:E4; simpl;
    [|intros _; exists "o3"; rewrite E4; split; [by vm_compute|done]].
  destruct (comps !! "so2") eqn:E5; simpl;
    [|intros _; exists "so2"; rewrite E5; split; [by vm_compute|done]].
  destruct (comps !! "pm2_5") eqn:E6; simpl;
    [|intros _; exists "pm2_5"; rewrite E6; split; [by vm_compute|done]].
  destruct (comps !! "pm10") eqn:E7; simpl;
    [|intros _; exists "pm10"; rewrite E7; split; [by vm_compute|done]].
  destruct (comps !! "nh3") eqn:E8; simpl;
    [|intros _; exists "nh3"; rewrite E8; split; [by vm_compute|done]].
  discriminate.
Qed.

(** A list with an incomplete record splits at the first such record. *)
Lemma first_incomplete (lst : list RawItem) :
  forallb complete lst = false →
  ∃ pre item post, lst = pre ++ item :: post ∧
    forallb complete pre = true ∧ complete item = false.
Proof.
  induction lst as [|x lst IH]; simpl; [discriminate|].
  destruct (complete x) eqn:Hx; simpl.
  - intros (pre & item & post & -> & Hpre & Hitem)%IH.
    exists (x :: pre), item, post. simpl. by rewrite Hx, Hpre.
  - intros _. by exists [], x, lst.
Qed.

Lemma process_item_Raise_inv tz item e :
  process_item tz item = Raise e → ∃ k, lacks item k = true ∧ e = KeyError k.
Proof.
  intros He. destruct (complete item) eqn:Hc.
  - destruct (process_item_complete tz item Hc) as [r Hr]. congruence.
  - destruct (process_item_incomplete tz item Hc) as (k & Hk & Hr).
    exists k. split; [done | congruence].
Qed.

(** ** Aggregation *)

Lemma aggregate_wf rs :
  Forall wf_reading rs →
  aggregate rs =
    Ok (sort_by_date ((λ d, day_summary d (day_readings d rs)) <$> day_keys rs)).
Proof.
  intros Hwf. unfold aggregate.
  rewrite (mapM_Ok_fmap _ (λ kv, day_summary kv.1 (day_readings kv.1 rs))).
  - simpl. unfold day_keys, keys. by rewrite <- list_fmap_compose.
  - apply Forall_forall. intros [d b] [Hne ->]%daily_data_buckets. simpl.
    apply summarize_day_bucket; [by apply day_readings_wf | done].
Qed.

Lemma aggregate_Ok_inv rs out :
  aggregate rs = Ok out →
  ∃ final,
    Forall2 (λ kv s, summarize_day kv = Ok s) (foldl add_reading [] rs) final ∧
    out = sort_by_date final.
Proof.
  unfold aggregate. intros H.
  apply bind_Ok_inv in H as (final & Hf%mapM_Ok_Forall2 & [= <-]). eauto.
Qed.

Lemma aggregate_dates rs out :
  aggregate rs = Ok out → date <$> out ≡ₚ day_keys rs.
Proof.
  intros (final & Hf & ->)%aggregate_Ok_inv.
  rewrite sort_by_date_Permutation. unfold day_keys, keys.
  assert (date <$> final = (foldl add_reading [] rs).*1) as ->; [|done].
  induction Hf as [|[d b] s l k Hs _ IH]; [done|].
  rewrite !fmap_cons. apply summarize_day_Ok_inv in Hs as (-> & _).
  by rewrite IH.
Qed.

Lemma aggregate_elem rs out s :
  aggregate rs = Ok out → s ∈ out →
  ∃ b, (date s, b) ∈ foldl add_reading [] rs ∧ summarize_day (date s, b) = Ok s.
Proof.
  intros (final & Hf & ->)%aggregate_Ok_inv Hs.
  rewrite sort_by_date_Permutation in Hs.
  apply list_elem_of_lookup in Hs as [i Hi].
  destruct (Forall2_lookup_r _ _ _ _ _ Hf Hi) as ([d b] & Hkv & Hsum).
  pose proof Hsum as (<- & _)%summarize_day_Ok_inv.
  exists b. split; [|done]. apply list_elem_of_lookup. eauto.
Qed.

(** ** The days partition the readings *)




(** ** Sums of integers *)

Lemma foldl_add_acc (a : Z) (l : list Z) : foldl Z.add a l = a + sum_int l.
Proof.
  unfold sum_int. revert a. induction l as [|x l IH]; intros a; simpl; [lia|].
  rewrite (IH (a + x)), (IH (0 + x)). lia.
Qed.

Lemma sum_int_cons (x : Z) (l : list Z) : sum_int (x :: l) = x + sum_int l.
Proof. unfold sum_int at 1. simpl. apply foldl_add_acc. Qed.

Lemma sum_int_bounds (lo hi : Z) (l : list Z) :
  Forall (λ a, lo ≤ a ≤ hi) l → lo * len l ≤ sum_int l ≤ hi * len l.
Proof.
  unfold len. induction 1 as [|x l Hx _ IH]; [unfold sum_int; simpl; lia|].
  rewrite sum_int_cons. simpl length. lia.
Qed.

Lemma mean_bounds (lo hi : Z) (l : list Z) :
  l ≠ [] → Forall (λ a, lo ≤ a ≤ hi) l →
  (inject_Z lo <= inject_Z (sum_int l) / inject_Z (len l))%Q ∧
  (inject_Z (sum_int l) / inject_Z (len l) <= inject_Z hi)%Q.
Proof.
  intros Hne%len_pos [Hlo Hhi]%sum_int_bounds.
  assert (0 < inject_Z (len l))%Q as Hpos
    by (rewrite (Zlt_Qlt 0 (len l)) in Hne; exact Hne).
  split.
  - apply Qle_shift_div_l; [done|].
    rewrite <- inject_Z_mult, <- Zle_Qle. done.
  - apply Qle_shift_div_r; [done|].
    rewrite <- inject_Z_mult, <- Zle_Qle. done.
Qed.

(** ** What a run returns *)

Lemma aggregate_summary rs out s :
  Forall wf_reading rs → aggregate rs = Ok out → s ∈ out →
  s = day_summary (date s) (day_readings (date s) rs).
Proof.
  intros Hwf Hout Hs. rewrite aggregate_wf in Hout by done.
  injection Hout as <-. rewrite sort_by_date_Permutation in Hs.
  apply list_elem_of_fmap in Hs as (d & -> & _). reflexivity.
Qed.

Lemma aggregate_aqi rs out s :
  aggregate rs = Ok out → s ∈ out →
  day_readings (date s) rs ≠ [] ∧
  aqi s = mean_aqi (day_readings (date s) rs) ∧
  aqi_description s = get_aqi_description (aqi s).
Proof.
  intros Hout Hs.
  destruct (aggregate_elem _ _ _ Hout Hs) as (b & Hb & Hsum).
  apply daily_data_buckets in Hb as [Hne ->].
  apply summarize_day_Ok_inv in Hsum as (_ & _ & Ha & Hd).
  rewrite bucket_aqi_values in Ha. simpl in Ha. rewrite len_fmap in Ha.
  done.
Qed.

Lemma description_known (a : Z) :
  1 ≤ a ≤ 5 → get_aqi_description a ≠ "Unknown".
Proof.
  intros Ha.
  assert (a = 1 ∨ a = 2 ∨ a = 3 ∨ a = 4 ∨ a = 5) as Hcases by lia.
  destruct Hcases as [->|[->|[->|[->| ->]]]]; vm_compute; discriminate.
Qed.

Lemma get_aqi_data_Ok tz lst out :
  get_aqi_data tz (mkResponse (Some lst)) = Ok out ↔
  ∃ rs, mapM (process_item tz) lst = Ok rs ∧ Forall wf_reading rs ∧
        aggregate rs = Ok out.
Proof.
  unfold get_aqi_data. simpl. split.
  - intros (rs & Hrs & Hout)%bind_Ok_inv.
    eauto using mapM_process_item_wf.
  - intros (rs & -> & _ & Hout). exact Hout.
Qed.

(** The run raises nothing but a [KeyError]; in particular no mean divides
    by zero. *)
Lemma get_aqi_data_Raise_inv tz data e :
  get_aqi_data tz data = Raise e → ∃ k, e = KeyError k.
Proof.
  unfold get_aqi_data. destruct data as [[lst|]]; simpl;
    [|intros [= <-]; eauto].
  destruct (mapM (process_item tz) lst) as [rs|e'] eqn:Hrs; simpl.
  - rewrite aggregate_wf by (by eapply mapM_process_item_wf). discriminate.
  - intros [= ->].
    apply mapM_Raise_inv in Hrs as (pre & x & post & _ & _ & Hx).
    apply process_item_Raise_inv in Hx as (k & _ & ->). eauto.
Qed.

(** ** A day of one reading *)

Lemma mean_int_of_one {A} (a : Z) (x : A) :
  (inject_Z (sum_int [a]) / inject_Z (len [x]) == inject_Z a)%Q.
Proof.
  unfold sum_int, len, Qeq. simpl. lia.
Qed.

Lemma dd_get_fmap_snd {V W} (f : V → W) (c : string) (m : list (string * V)) :
  dd_get c ((λ pv, (pv.1, f pv.2)) <$> m) = f <$> dd_get c m.
Proof.
  induction m as [|[c' v] m IH]; simpl; [done|]. by case_decide.
Qed.

(** The rounded mean of one sample [v] is [round(0 + v, 2)]. *)
Lemma mean_channel_one (c : string) (r : Reading) :
  mean_channel c [r] = py_round2 (0 + channel c r).
Proof.
  unfold mean_channel. rewrite list_fmap_singleton, sum_float_one.
  change (float_of_Z (len [r])) with 1%float. by rewrite div_one.
Qed.

Lemma aggregate_one (r : Reading) :
  wf_reading r → aggregate [r] = Ok [rounded_copy r].
Proof.
  intros Hwf. rewrite aggregate_wf by (by constructor).
  unfold day_keys. simpl. rewrite keys_add_reading. simpl.
  unfold day_readings. rewrite filter_cons, decide_True by done.
  rewrite filter_nil. do 2 f_equal.
  unfold day_summary, rounded_copy, mean_aqi.
  assert (py_round (inject_Z (sum_int (r_aqi <$> [r])) / inject_Z (len [r]))
          = r_aqi r) as ->.
  { rewrite (py_round_comp _ (inject_Z (r_aqi r)));
      [apply py_round_inject_Z|]. apply mean_int_of_one. }
  f_equal.
  unfold wf_reading, keys, CHANNELS in Hwf.
  destruct r as [d dt a ps]. simpl in *.
  do 8 (destruct ps as [|[? ?] ps]; [by simpl in Hwf|]).
  destruct ps; [|by simpl in Hwf]. simpl in Hwf. simplify_eq.
  unfold CHANNELS. rewrite !fmap_cons, !fmap_nil.
  rewrite !mean_channel_one. reflexivity.
Qed.

(** * The claims *)

(** C4. The classification is a total function on the integers: it maps
    1 to "Good", 2 to "Fair", 3 to "Moderate", 4 to "Poor", 5 to
    "Very Poor", and every other integer (0 and 6 among them) to
    "Unknown". *)
Theorem get_aqi_description_total :
  get_aqi_description 1 = "Good" ∧
  get_aqi_description 2 = "Fair" ∧
  get_aqi_description 3 = "Moderate" ∧
  get_aqi_description 4 = "Poor" ∧
  get_aqi_description 5 = "Very Poor" ∧
  ∀ n : Z, ¬ (1 ≤ n ≤ 5) → get_aqi_description n = "Unknown".
Proof.
  split_and!; try reflexivity.
  intros n Hn. unfold get_aqi_description, descriptions.
  rewrite !lookup_insert_ne by lia. by rewrite lookup_empty.
Qed.

(** C5. Aggregating an empty sequence of readings returns the empty list
    of summaries, and so does the whole function on a response whose list
    is empty; nothing is raised. *)
Theorem empty_input (tz : Z → Z) :
  aggregate [] = Ok [] ∧ get_aqi_data tz (mkResponse (Some [])) = Ok [].
Proof. split; reflexivity. Qed.

(** C3. Whatever the arrival order of the readings, the summaries come out
    strictly ascending by calendar date. *)
Theorem output_sorted_by_date (rs : list Reading) (out : list DailySummary) :
  aggregate rs = Ok out → StronglySorted date_lt (date <$> out).
Proof.
  intros H. pose proof (aggregate_dates _ _ H) as Hperm.
  apply aggregate_Ok_inv in H as (final & _ & ->).
  apply sorted_NoDup_strict; [apply sort_by_date_sorted|].
  rewrite Hperm. apply day_keys_NoDup.
Qed.

(** C9. The aggregation is a function of the sequence of readings alone:
    two runs on the same sequence return the same list of summaries (or
    raise the same exception). *)
Theorem aggregate_deterministic (rs : list Reading)
    (run1 run2 : result (list DailySummary)) :
  aggregate rs = run1 → aggregate rs = run2 → run1 = run2.
Proof. congruence. Qed.


(** C2. A day whose readings carry the AQI codes 2, 3, 3, 4 comes out
    with [aqi] 3 and the label "Moderate"; a day whose readings carry the
    pm2_5 values 10.0 and 20.0 comes out with pm2_5 equal to 15.0. *)
Theorem mean_examples (rs : list Reading) (out : list DailySummary)
    (s : DailySummary) :
  Forall wf_reading rs → aggregate rs = Ok out → s ∈ out →
  (r_aqi <$> day_readings (date s) rs = [2; 3; 3; 4] →
     aqi s = 3 ∧ aqi_description s = "Moderate") ∧
  (channel "pm2_5" <$> day_readings (date s) rs = [10%float; 20%float] →
     dd_get "pm2_5" (pollutants s) = Some 15%float).
Proof.
  intros Hwf Hout Hs.
  pose proof (aggregate_summary _ _ _ Hwf Hout Hs) as Hsum.
  set (rs' := day_readings (date s) rs) in *. split.
  - intros Ha. rewrite Hsum. simpl. unfold mean_aqi.
    rewrite <- (len_fmap r_aqi), Ha. split; reflexivity.
  - intros Hv. rewrite Hsum. simpl. unfold mean_channel.
    rewrite <- (len_fmap (channel "pm2_5")), Hv. f_equal.
    unfold sum_float. destruct sum_version; vm_compute; reflexivity.
Qed.

(** C10. When every reading carries an AQI code between 1 and 5, every
    output day has an [aqi] between 1 and 5, and no day is labelled
    "Unknown". *)
Theorem aqi_in_range (rs : list Reading) (out : list DailySummary) :
  Forall (λ r, 1 ≤ r_aqi r ≤ 5) rs → aggregate rs = Ok out →
  Forall (λ s, 1 ≤ aqi s ≤ 5 ∧ aqi_description s ≠ "Unknown") out.
Proof.
  intros Hrs Hout. apply Forall_forall. intros s Hs.
  destruct (aggregate_aqi _ _ _ Hout Hs) as (Hne & Ha & Hd).
  assert (1 ≤ aqi s ≤ 5) as Hrange.
  { rewrite Ha. unfold mean_aqi. rewrite <- (len_fmap r_aqi).
    destruct (mean_bounds 1 5 (r_aqi <$> day_readings (date s) rs))
      as [Hlo Hhi].
    - by destruct (day_readings (date s) rs).
    - apply Forall_fmap, Forall_forall.
      intros r [_ Hr]%list_elem_of_filter.
      rewrite Forall_forall in Hrs. by apply Hrs.
    - by apply py_round_bounds. }
  split; [done|]. rewrite Hd. by apply description_known.
Qed.

(** C8, as the code has it.  For an input of one reading, the one output
    day carries that reading's AQI code unchanged and, on each channel,
    the reading's value [v] rounded to two decimals: [round(0 + v, 2)],
    which is [round(v, 2)] for every [v] but the negative zero, and 0.0 for
    the negative zero. *)
Theorem single_reading (tz : Z → Z) (item : RawItem) (r : Reading) :
  process_item tz item = Ok r →
  get_aqi_data tz (mkResponse (Some [item])) = Ok [rounded_copy r] ∧
  aqi (rounded_copy r) = r_aqi r ∧
  ∀ c v, dd_get c (r_pollutants r) = Some v →
    dd_get c (pollutants (rounded_copy r)) = Some (py_round2 (0 + v)) ∧
    (v ≠ (-0)%float →
     dd_get c (pollutants (rounded_copy r)) = Some (py_round2 v)) ∧
    (v = (-0)%float →
     dd_get c (pollutants (rounded_copy r)) = Some 0%float).
Proof.
  intros Hr. split_and!.
  - unfold get_aqi_data. simpl. rewrite Hr. simpl.
    apply aggregate_one. by eapply process_item_wf.
  - reflexivity.
  - intros c v Hc.
    assert (dd_get c (pollutants (rounded_copy r))
            = Some (py_round2 (0 + v))) as Hout.
    { pose proof (dd_get_fmap_snd (λ v, py_round2 (0 + v)) c
                    (r_pollutants r)) as H.
      rewrite Hc in H. exact H. }
    split; [exact Hout|]. split.
    + intros Hv. by rewrite Hout, add_zero_l.
    + intros ->. rewrite Hout. reflexivity.
Qed.

(** C6. When a raw record lacks a field that the normalising loop reads,
    the run raises a [KeyError] that names a key the record lacks ("so2"
    when that is the only one), and returns no list of summaries. *)
Theorem malformed_record_rejected (tz : Z → Z) (pre post : list RawItem)
    (item : RawItem) :
  forallb complete pre = true → complete item = false →
  (∃ k, lacks item k = true ∧
        get_aqi_data tz (mkResponse (Some (pre ++ item :: post)))
          = Raise (KeyError k)) ∧
  ((∀ k, lacks item k = true → k = "so2") →
   get_aqi_data tz (mkResponse (Some (pre ++ item :: post)))
     = Raise (KeyError "so2")).
Proof.
  intros Hpre Hitem.
  destruct (process_item_incomplete tz item Hitem) as (k & Hk & Hraise).
  assert (get_aqi_data tz (mkResponse (Some (pre ++ item :: post)))
          = Raise (KeyError k)) as Hrun.
  { unfold get_aqi_data. simpl.
    rewrite (mapM_Raise _ pre post item (KeyError k)); [done| |done].
    apply Forall_forall. intros it Hit. apply process_item_complete.
    rewrite forallb_forall in Hpre. apply Hpre. by apply list_elem_of_In. }
  split; [eauto|]. intros Honly. by rewrite <- (Honly k Hk).
Qed.

(** C7, as the code has it.  Whenever normalisation succeeds, every bucket
    that the grouping loop builds has a non-empty sequence of AQI samples
    and exactly the eight channels, each with as many samples as the day
    has readings; no mean is requested on an absent or empty channel, and
    the run returns a list of summaries. *)
Theorem buckets_complete (tz : Z → Z) (lst : list RawItem)
    (rs : list Reading) :
  mapM (process_item tz) lst = Ok rs →
  (∀ d b, (d, b) ∈ foldl add_reading [] rs →
     aqi_values b ≠ [] ∧
     keys (b_pollutants b) = CHANNELS ∧
     Forall (λ cv, length cv.2 = length (aqi_values b)) (b_pollutants b)) ∧
  ∃ out, get_aqi_data tz (mkResponse (Some lst)) = Ok out.
Proof.
  intros Hrs. pose proof (mapM_process_item_wf _ _ _ Hrs) as Hwf. split.
  - intros d b [Hne ->]%daily_data_buckets.
    rewrite bucket_aqi_values, bucket_pollutants
      by (by auto using day_readings_wf).
    simpl. split_and!.
    + by destruct (day_readings d rs).
    + reflexivity.
    + unfold CHANNELS. repeat constructor; simpl; by rewrite !length_fmap.
  - unfold get_aqi_data. simpl. rewrite Hrs. simpl.
    rewrite aggregate_wf by done. eauto.
Qed.

(** * Further properties of the pipeline *)

(** ** Helper lemmas *)

Lemma sorted_by_date_unique (l1 l2 : list DailySummary) :
  (∀ x y, x ∈ l1 → y ∈ l2 → date x = date y → x = y) →
  l1 ≡ₚ l2 → sort_by_date l1 = sort_by_date l2.
Proof.
  intros Hdate Hperm.
  apply (StronglySorted_unique_strong by_date).
  - intros x y Hx Hy Hxy Hyx.
    rewrite sort_by_date_Permutation in Hx, Hy. apply Hdate; [done..|].
    unfold by_date, date_le in *.
    destruct (date x) as [y1 m1 d1], (date y) as [y2 m2 d2]. simpl in *.
    f_equal; lia.
  - apply sort_by_date_sorted.
  - apply sort_by_date_sorted.
  - by rewrite !sort_by_date_Permutation.
Qed.

Lemma process_item_first_missing tz item k :
  first_missing item = Some k → process_item tz item = Raise (KeyError k).
Proof.
  unfold first_missing, REQUIRED_KEYS, CHANNELS, process_item, component,
    getitem, lacks. simpl.
  destruct (item_dt item) as [ts|]; simpl; [|by intros [= <-]].
  destruct (item_main item) as [main|]; simpl; [|by intros [= <-]].
  destruct (main !! "aqi") as [a|]; simpl; [|by intros [= <-]].
  destruct (item_components item) as [comps|]; simpl; [|by intros [= <-]].
  destruct (comps !! "co"); simpl; [|by intros [= <-]].
  destruct (comps !! "no"); simpl; [|by intros [= <-]].
  destruct (comps !! "no2"); simpl; [|by intros [= <-]].
  destruct (comps !! "o3"); simpl; [|by intros [= <-]].
  destruct (comps !! "so2"); simpl; [|by intros [= <-]].
  destruct (comps !! "pm2_5"); simpl; [|by intros [= <-]].
  destruct (comps !! "pm10"); simpl; [|by intros [= <-]].
  destruct (comps !! "nh3"); simpl; [|by intros [= <-]].
  discriminate.
Qed.

(** ** Shape and size of the result *)

(** X1. Every summary that [get_aqi_data] returns carries exactly the eight
    channels, in the order co, no, no2, o3, so2, pm2_5, pm10, nh3, and its
    label is the classification of its own [aqi]. *)
Theorem summaries_have_all_channels (tz : Z → Z) (data : Response)
    (out : list DailySummary) :
  get_aqi_data tz data = Ok out →
  Forall (λ s, keys (pollutants s) = CHANNELS ∧
               aqi_description s = get_aqi_description (aqi s)) out.
Proof.
  destruct data as [[lst|]]; [|discriminate].
  intros (rs & _ & Hwf & Hout)%get_aqi_data_Ok.
  apply Forall_forall. intros s Hs.
  rewrite (aggregate_summary _ _ _ Hwf Hout Hs). split; reflexivity.
Qed.

(** X2. When [get_aqi_data] returns, the list of summaries is empty exactly
    when the response's list is empty, and it never has more entries than
    the response has records. *)
Theorem summaries_count (tz : Z → Z) (lst : list RawItem)
    (out : list DailySummary) :
  get_aqi_data tz (mkResponse (Some lst)) = Ok out →
  (out = [] ↔ lst = []) ∧ (length out ≤ length lst)%nat.
Proof.
  intros (rs & Hrs & _ & Hout)%get_aqi_data_Ok.
  apply mapM_Ok_Forall2 in Hrs. pose proof (Forall2_length _ _ _ Hrs) as Hlen.
  pose proof (aggregate_dates _ _ Hout) as Hperm.
  assert (length out = length (day_keys rs)) as Hout_len.
  { rewrite <- (length_fmap date out). by apply Permutation_length. }
  assert (length (day_keys rs) ≤ length rs)%nat as Hle.
  { rewrite <- (length_fmap r_date rs). apply submseteq_length.
    apply NoDup_submseteq; [apply day_keys_NoDup|].
    intros d. by rewrite elem_of_day_keys. }
  split; [|lia]. split.
  - intros ->. destruct rs as [|r rs]; [by destruct lst|].
    assert (r_date r ∈ day_keys (r :: rs)) as Hin
      by (apply elem_of_day_keys; left).
    destruct (day_keys (r :: rs)); [by apply elem_of_nil in Hin | done].
  - intros ->. destruct out; [done | simpl in *; lia].
Qed.

(** ** Arrival order *)

(** X3. The result depends on the readings only through the sequence of
    readings of each day: two inputs that agree day by day, however the
    days are interleaved, give the same list of summaries. *)
Theorem interleaving_irrelevant (rs1 rs2 : list Reading) :
  Forall wf_reading rs1 → Forall wf_reading rs2 →
  (∀ d, day_readings d rs1 = day_readings d rs2) →
  aggregate rs1 = aggregate rs2.
Proof.
  intros Hwf1 Hwf2 Hday. rewrite !aggregate_wf by done. f_equal.
  assert (day_keys rs1 ≡ₚ day_keys rs2) as Hkeys.
  { apply NoDup_Permutation; [apply day_keys_NoDup..|].
    intros d. rewrite !elem_of_day_keys. unfold day_readings in Hday.
    split; intros (r & -> & Hr)%list_elem_of_fmap.
    - assert (r ∈ filter (λ r', r_date r' = r_date r) rs2) as Hin
        by (rewrite <- (Hday (r_date r)); by apply list_elem_of_filter).
      apply list_elem_of_filter in Hin as [_ Hin].
      by apply list_elem_of_fmap_2.
    - assert (r ∈ filter (λ r', r_date r' = r_date r) rs1) as Hin
        by (rewrite (Hday (r_date r)); by apply list_elem_of_filter).
      apply list_elem_of_filter in Hin as [_ Hin].
      by apply list_elem_of_fmap_2. }
  apply sorted_by_date_unique.
  - intros x y (d1 & -> & _)%list_elem_of_fmap (d2 & -> & _)%list_elem_of_fmap.
    simpl. intros ->. by rewrite Hday.
  - rewrite Hkeys. apply Permutation_refl'.
    apply list_fmap_ext. intros _ d _. by rewrite Hday.
Qed.

(** ** Bounds on the averages *)

(** X4. The [aqi] of an output day lies between any two integers that
    bound the AQI codes of that day's readings; a day whose readings all
    carry the same code comes out with that code. *)
Theorem day_aqi_bounds (rs : list Reading) (out : list DailySummary)
    (s : DailySummary) (lo hi : Z) :
  aggregate rs = Ok out → s ∈ out →
  Forall (λ r, lo ≤ r_aqi r ≤ hi) (day_readings (date s) rs) →
  lo ≤ aqi s ≤ hi.
Proof.
  intros Hout Hs Hrs.
  destruct (aggregate_aqi _ _ _ Hout Hs) as (Hne & -> & _).
  unfold mean_aqi. rewrite <- (len_fmap r_aqi).
  destruct (mean_bounds lo hi (r_aqi <$> day_readings (date s) rs))
    as [Hlo Hhi].
  - by destruct (day_readings (date s) rs).
  - by apply Forall_fmap.
  - by apply py_round_bounds.
Qed.

(** ** Which key the error names *)

(** X6. When the records before it are complete, the first incomplete
    record makes the run raise [KeyError] for the first key, in the order
    dt, main, aqi, components, co, no, no2, o3, so2, pm2_5, pm10, nh3, that
    the record lacks. *)
Theorem first_missing_key_reported (tz : Z → Z) (pre post : list RawItem)
    (item : RawItem) (k : string) :
  forallb complete pre = true → first_missing item = Some k →
  get_aqi_data tz (mkResponse (Some (pre ++ item :: post)))
    = Raise (KeyError k).
Proof.
  intros Hpre Hk. unfold get_aqi_data. simpl.
  rewrite (mapM_Raise _ pre post item (KeyError k)); [done| |].
  - apply Forall_forall. intros it Hit. apply process_item_complete.
    rewrite forallb_forall in Hpre. apply Hpre. by apply list_elem_of_In.
  - by apply process_item_first_missing.
Qed.

(** ** Ties *)

Lemma py_round_half (a : Z) :
  py_round ((2 * a + 1) # 2) = if Z.even a then a else a + 1.
Proof.
  unfold py_round.
  assert (Qfloor ((2 * a + 1) # 2) = a) as ->.
  { unfold Qfloor. symmetry. apply Z.div_unique with (r := 1); lia. }
  assert (Qcompare (((2 * a + 1) # 2) - inject_Z a) (1 # 2) = Eq) as ->;
    [|reflexivity].
  apply Qeq_alt. unfold Qeq. simpl. lia.
Qed.

(** X7. A day with two readings whose AQI codes are consecutive integers
    comes out with the even one of the two: codes 2 and 3 give 2, codes 3
    and 4 give 4. *)
Theorem two_codes_tie_to_even (rs : list Reading) (out : list DailySummary)
    (s : DailySummary) (a : Z) :
  aggregate rs = Ok out → s ∈ out →
  (r_aqi <$> day_readings (date s) rs = [a; a + 1] ∨
   r_aqi <$> day_readings (date s) rs = [a + 1; a]) →
  aqi s = if Z.even a then a else a + 1.
Proof.
  intros Hout Hs Hcodes.
  destruct (aggregate_aqi _ _ _ Hout Hs) as (_ & -> & _).
  unfold mean_aqi. rewrite <- (len_fmap r_aqi).
  rewrite <- py_round_half. apply py_round_comp.
  destruct Hcodes as [-> | ->]; unfold sum_int, len, Qeq; simpl; lia.
Qed.

(** * Properties of the reporting code *)

(** ** Printing computations *)

Lemma io_bind_inr {A B} (m : io A) (f : A → io B) (a : A) :
  outcome m = inr a →
  m ≫= f = IO (printed m ++ printed (f a)) (outcome (f a)).
Proof.
  destruct m as [p o]. simpl. intros ->. unfold mbind, io_bind.
  by destruct (f a).
Qed.

Lemma io_bind_inl {A B} (m : io A) (f : A → io B) (e : report_exn) :
  outcome m = inl e → m ≫= f = IO (printed m) (inl e).
Proof. destruct m as [p o]. simpl. by intros ->. Qed.

Lemma io_bind_lift_Ok {A B} (a : A) (f : A → io B) : lift (Ok a) ≫= f = f a.
Proof. unfold mbind, io_bind. simpl. by destruct (f a). Qed.

Lemma io_bind_silent_inr {A B} (a : A) (f : A → io B) :
  silent (inr a) ≫= f = f a.
Proof. unfold mbind, io_bind. simpl. by destruct (f a). Qed.

Lemma for_each_Ok {A} (body : A → io unit) (n : nat) (l : list A) :
  Forall (λ x, outcome (body x) = inr tt ∧ length (printed (body x)) = n) l →
  outcome (for_each body l) = inr tt ∧
  length (printed (for_each body l)) = (n * length l)%nat.
Proof.
  induction 1 as [|x l [Hx Hn] _ [IH1 IH2]]; simpl; [split; [done|lia]|].
  rewrite (io_bind_inr _ _ tt Hx). simpl.
  rewrite length_app, Hn, IH2. split; [done|lia].
Qed.

Lemma for_each_inr_inv {A} (body : A → io unit) (l : list A) :
  outcome (for_each body l) = inr tt →
  Forall (λ x, outcome (body x) = inr tt) l.
Proof.
  induction l as [|x l IH]; simpl; [constructor|].
  destruct (outcome (body x)) as [e|[]] eqn:Hx.
  - rewrite (io_bind_inl _ _ e Hx). discriminate.
  - rewrite (io_bind_inr _ _ tt Hx). simpl. intros H. constructor; auto.
Qed.

Lemma for_each_inl_inv {A} (body : A → io unit) (l : list A) e :
  outcome (for_each body l) = inl e →
  ∃ x, x ∈ l ∧ outcome (body x) = inl e.
Proof.
  induction l as [|x l IH]; simpl; [discriminate|].
  destruct (outcome (body x)) as [e'|[]] eqn:Hx.
  - rewrite (io_bind_inl _ _ e' Hx). simpl. intros [= ->].
    exists x. split; [left | done].
  - rewrite (io_bind_inr _ _ tt Hx). simpl.
    intros (y & Hy & He)%IH. exists y. split; [by right | done].
Qed.

(** ** [print_aqi_summary] *)

Lemma print_day_Ok repr (s : DailySummary) :
  has_printed_channels s →
  outcome (print_day repr s) = inr tt ∧
  length (printed (print_day repr s)) = 6%nat.
Proof.
  unfold has_printed_channels, PRINTED_CHANNELS. intros H.
  apply Forall_cons_1 in H as [[v1 H1] H].
  apply Forall_cons_1 in H as [[v2 H2] H].
  apply Forall_cons_1 in H as [[v3 H3] H].
  apply Forall_cons_1 in H as [[v4 H4] _].
  unfold print_day, print_channel, alist_getitem.
  rewrite H1, H2, H3, H4. split; reflexivity.
Qed.

Lemma print_day_raises repr (s : DailySummary) e :
  outcome (print_day repr s) = inl e →
  ∃ c, c ∈ PRINTED_CHANNELS ∧ dd_get c (pollutants s) = None ∧
       e = Pipeline (KeyError c).
Proof.
  unfold print_day, print_channel, alist_getitem, PRINTED_CHANNELS.
  destruct (dd_get "pm2_5" (pollutants s)) eqn:E1;
    [|intros [= <-]; exists "pm2_5"; split_and!; [set_solver|done..]].
  destruct (dd_get "pm10" (pollutants s)) eqn:E2;
    [|intros [= <-]; exists "pm10"; split_and!; [set_solver|done..]].
  destruct (dd_get "o3" (pollutants s)) eqn:E3;
    [|intros [= <-]; exists "o3"; split_and!; [set_solver|done..]].
  destruct (dd_get "no2" (pollutants s)) eqn:E4;
    [|intros [= <-]; exists "no2"; split_and!; [set_solver|done..]].
  discriminate.
Qed.

Lemma print_day_inr_inv repr (s : DailySummary) :
  outcome (print_day repr s) = inr tt → has_printed_channels s.
Proof.
  unfold print_day, print_channel, alist_getitem, has_printed_channels,
    PRINTED_CHANNELS.
  destruct (dd_get "pm2_5" (pollutants s)) eqn:E1; [|discriminate].
  destruct (dd_get "pm10" (pollutants s)) eqn:E2; [|discriminate].
  destruct (dd_get "o3" (pollutants s)) eqn:E3; [|discriminate].
  destruct (dd_get "no2" (pollutants s)) eqn:E4; [|discriminate].
  intros _. repeat (apply Forall_cons; split; [eauto|]). constructor.
Qed.

Lemma print_aqi_summary_unfold repr (l : list DailySummary) :
  outcome (print_aqi_summary repr l) = outcome (for_each (print_day repr) l) ∧
  length (printed (print_aqi_summary repr l)) =
    (2 + length (printed (for_each (print_day repr) l)))%nat.
Proof.
  unfold print_aqi_summary, print, mbind, io_bind.
  destruct (for_each (print_day repr) l). split; reflexivity.
Qed.

Lemma day_summary_printed_channels d rs :
  has_printed_channels (day_summary d rs).
Proof. repeat constructor; by eexists. Qed.

Lemma get_aqi_data_day_summary tz data out s :
  get_aqi_data tz data = Ok out → s ∈ out →
  ∃ rs, s = day_summary (date s) rs ∧ rs ≠ [].
Proof.
  destruct data as [[lst|]]; [|discriminate].
  intros (rs & _ & Hwf & Hout)%get_aqi_data_Ok Hs.
  exists (day_readings (date s) rs). split.
  - by apply (aggregate_summary _ out).
  - by destruct (aggregate_aqi _ _ _ Hout Hs) as (Hne & _).
Qed.

(** X8. On the list that [get_aqi_data] returns, [print_aqi_summary] never
    raises, and it prints two header lines and six lines for each day. *)
Theorem print_aqi_summary_after_fetch (repr : float → string) (tz : Z → Z)
    (data : Response) (out : list DailySummary) :
  get_aqi_data tz data = Ok out →
  outcome (print_aqi_summary repr out) = inr tt ∧
  length (printed (print_aqi_summary repr out)) = (2 + 6 * length out)%nat.
Proof.
  intros Hout.
  destruct (print_aqi_summary_unfold repr out) as [-> ->].
  destruct (for_each_Ok (print_day repr) 6 out) as [H1 H2].
  - apply Forall_forall. intros s Hs. apply print_day_Ok.
    destruct (get_aqi_data_day_summary _ _ _ _ Hout Hs) as (rs & -> & _).
    apply day_summary_printed_channels.
  - by rewrite H1, H2.
Qed.

(** X9. [print_aqi_summary] reads four channels only: it returns normally
    exactly when every day has pm2_5, pm10, o3 and no2, whatever else is
    missing, and otherwise it raises [KeyError] for one of these four that
    some day lacks. *)
Theorem print_aqi_summary_needs_four_channels (repr : float → string)
    (l : list DailySummary) :
  (outcome (print_aqi_summary repr l) = inr tt ↔
     Forall has_printed_channels l) ∧
  (∀ e, outcome (print_aqi_summary repr l) = inl e →
     ∃ day c, day ∈ l ∧ c ∈ PRINTED_CHANNELS ∧
       dd_get c (pollutants day) = None ∧ e = Pipeline (KeyError c)).
Proof.
  destruct (print_aqi_summary_unfold repr l) as [-> _]. split; [split|].
  - intros H%for_each_inr_inv. eapply Forall_impl; [exact H|].
    intros s Hs. exact (print_day_inr_inv repr s Hs).
  - intros H. apply (for_each_Ok (print_day repr) 6).
    eapply Forall_impl; [exact H|]. intros s Hs. by apply print_day_Ok.
  - intros e (day & Hday & He)%for_each_inl_inv.
    apply print_day_raises in He as (c & Hc & Hnone & ->). eauto 10.
Qed.

(** ** [min] and [max] with a key *)

Lemma py_min_by_spec {A} (key : A → Z) (l : list A) :
  l ≠ [] →
  ∃ x l1 l2, py_min_by key l = inr x ∧ l = l1 ++ x :: l2 ∧
    Forall (λ y, key x < key y) l1 ∧ Forall (λ y, key x ≤ key y) l2.
Proof.
  destruct l as [|x0 l]; [done|]. intros _. simpl.
  induction l as [|y l IH] using rev_ind.
  - exists x0, [], []. simpl. split_and!; [done..|constructor|constructor].
  - destruct IH as (b & l1 & l2 & [= Hb] & Hl & H1 & H2).
    rewrite foldl_app. simpl. rewrite Hb. case_decide as Hy.
    + exists y, (x0 :: l), []. split_and!; [done|done| |constructor].
      rewrite Hl. apply Forall_app. split; [|constructor].
      * eapply Forall_impl; [exact H1|]. simpl. lia.
      * lia.
      * eapply Forall_impl; [exact H2|]. simpl. lia.
    + exists b, l1, (l2 ++ [y]). split_and!; [done| |done|].
      * rewrite app_comm_cons, Hl, <- app_assoc. done.
      * apply Forall_app. split; [done|]. constructor; [lia|constructor].
Qed.

Lemma py_max_by_spec {A} (key : A → Z) (l : list A) :
  l ≠ [] →
  ∃ x l1 l2, py_max_by key l = inr x ∧ l = l1 ++ x :: l2 ∧
    Forall (λ y, key y < key x) l1 ∧ Forall (λ y, key y ≤ key x) l2.
Proof.
  destruct l as [|x0 l]; [done|]. intros _. simpl.
  induction l as [|y l IH] using rev_ind.
  - exists x0, [], []. simpl. split_and!; [done..|constructor|constructor].
  - destruct IH as (b & l1 & l2 & [= Hb] & Hl & H1 & H2).
    rewrite foldl_app. simpl. rewrite Hb. case_decide as Hy.
    + exists y, (x0 :: l), []. split_and!; [done|done| |constructor].
      rewrite Hl. apply Forall_app. split; [|constructor].
      * eapply Forall_impl; [exact H1|]. simpl. lia.
      * lia.
      * eapply Forall_impl; [exact H2|]. simpl. lia.
    + exists b, l1, (l2 ++ [y]). split_and!; [done| |done|].
      * rewrite app_comm_cons, Hl, <- app_assoc. done.
      * apply Forall_app. split; [done|]. constructor; [lia|constructor].
Qed.

Lemma py_min_by_fmap {A} (key : A → Z) (l : list A) (x : A) :
  py_min_by key l = inr x → py_min_by id (key <$> l) = inr (key x).
Proof.
  destruct l as [|x0 l]; [discriminate|]. simpl. intros [= <-]. f_equal.
  revert x0. induction l as [|y l IH]; intros x0; simpl; [done|].
  unfold id in *. case_decide; apply IH.
Qed.

Lemma py_max_by_fmap {A} (key : A → Z) (l : list A) (x : A) :
  py_max_by key l = inr x → py_max_by id (key <$> l) = inr (key x).
Proof.
  destruct l as [|x0 l]; [discriminate|]. simpl. intros [= <-]. f_equal.
  revert x0. induction l as [|y l IH]; intros x0; simpl; [done|].
  unfold id in *. case_decide; apply IH.
Qed.

(** ** The statistics *)

Lemma print_statistics_lines fmt fmtf (l : list DailySummary)
    (best worst : DailySummary) :
  Forall (λ s, is_Some (dd_get "pm2_5" (pollutants s))) l →
  py_min_by aqi l = inr best → py_max_by aqi l = inr worst →
  print_statistics fmt fmtf l =
    IO [nl +:+ "Statistics:";
        "Average AQI: " +:+ fmt (average_aqi l);
        "Average PM2.5: " +:+
          fmtf (sum_float (pm25_of <$> l)
                / float_of_Z (len (pm25_of <$> l)))%float
          +:+ " μg/m³";
        "Best day: " +:+ strftime_ymd (date best) +:+ " (AQI "
          +:+ pretty (aqi best) +:+ ")";
        "Worst day: " +:+ strftime_ymd (date worst) +:+ " (AQI "
          +:+ pretty (aqi worst) +:+ ")"]
       (inr tt).
Proof.
  intros Hpm Hbest Hworst.
  assert (l ≠ []) as Hne by (intros ->; discriminate).
  unfold print_statistics.
  rewrite (mapM_Ok_fmap _ pm25_of).
  2:{ eapply Forall_impl; [exact Hpm|]. intros s [v Hv].
      unfold alist_getitem, pm25_of. by rewrite Hv. }
  rewrite io_bind_lift_Ok.
  rewrite py_truediv_len, py_truediv_float_len by (by destruct l).
  rewrite Hbest, Hworst.
  rewrite (py_min_by_fmap _ _ _ Hbest), (py_max_by_fmap _ _ _ Hworst).
  reflexivity.
Qed.

Lemma get_aqi_data_sorted tz data out :
  get_aqi_data tz data = Ok out → StronglySorted by_date out.
Proof.
  destruct data as [[lst|]]; [|discriminate].
  intros (rs & _ & _ & Hout)%get_aqi_data_Ok.
  apply aggregate_Ok_inv in Hout as (final & _ & ->).
  apply sort_by_date_sorted.
Qed.

Lemma get_aqi_data_pm25 tz data out :
  get_aqi_data tz data = Ok out →
  Forall (λ s, is_Some (dd_get "pm2_5" (pollutants s))) out.
Proof.
  intros Hout. apply Forall_forall. intros s Hs.
  destruct (get_aqi_data_day_summary _ _ _ _ Hout Hs) as (rs & -> & _).
  by eexists.
Qed.

Lemma date_le_refl (d : Date) : date_le d d.
Proof. unfold date_le. lia. Qed.

(** In a list sorted by date, an element that comes first among those of
    its kind has the earliest date among them. *)
Lemma first_is_earliest (l l1 l2 : list DailySummary) (x s : DailySummary)
    (P : DailySummary → Prop) :
  StronglySorted by_date l → l = l1 ++ x :: l2 →
  Forall (λ y, ¬ P y) l1 → s ∈ l → P s → date_le (date x) (date s).
Proof.
  intros Hsorted -> Hl1 Hs HP.
  apply elem_of_app in Hs as [Hs|Hs].
  - rewrite Forall_forall in Hl1. by destruct (Hl1 s Hs).
  - apply StronglySorted_app_1_r in Hsorted.
    apply elem_of_cons in Hs as [->|Hs]; [apply date_le_refl|].
    apply StronglySorted_inv in Hsorted as [_ Hx].
    rewrite Forall_forall in Hx. by apply Hx.
Qed.

(** X10. On the list that [get_aqi_data] returns, the statistics block of
    the script raises [ZeroDivisionError], right after printing its
    heading, when the list is empty; on a non-empty list it prints its five
    lines and raises nothing. *)
Theorem statistics_after_fetch (fmt : Q → string) (fmtf : float → string)
    (tz : Z → Z) (data : Response) (out : list DailySummary) :
  get_aqi_data tz data = Ok out →
  match out with
  | [] => print_statistics fmt fmtf out
            = IO [nl +:+ "Statistics:"] (inl (Pipeline ZeroDivisionError))
  | _ :: _ => outcome (print_statistics fmt fmtf out) = inr tt ∧
              length (printed (print_statistics fmt fmtf out)) = 5%nat
  end.
Proof.
  intros Hout. destruct out as [|s out]; [reflexivity|].
  destruct (py_min_by_spec aqi (s :: out)) as (best & _ & _ & Hb & _);
    [done|].
  destruct (py_max_by_spec aqi (s :: out)) as (worst & _ & _ & Hw & _);
    [done|].
  rewrite (print_statistics_lines fmt fmtf _ best worst);
    [split; reflexivity | by eapply get_aqi_data_pm25 | done | done].
Qed.

(** X11. On a non-empty list returned by [get_aqi_data], the line
    "Best day" names a day of the list together with that day's own AQI,
    which no day undercuts, and among the days with that AQI it is the one
    with the earliest date; the line "Worst day" does the same for the
    highest AQI. *)
Theorem best_and_worst_day (fmt : Q → string) (fmtf : float → string)
    (tz : Z → Z) (data : Response) (out : list DailySummary) :
  get_aqi_data tz data = Ok out → out ≠ [] →
  ∃ best worst,
    printed (print_statistics fmt fmtf out) !! 3%nat =
      Some ("Best day: " +:+ strftime_ymd (date best) +:+ " (AQI "
              +:+ pretty (aqi best) +:+ ")") ∧
    printed (print_statistics fmt fmtf out) !! 4%nat =
      Some ("Worst day: " +:+ strftime_ymd (date worst) +:+ " (AQI "
              +:+ pretty (aqi worst) +:+ ")") ∧
    best ∈ out ∧ worst ∈ out ∧
    (∀ s, s ∈ out → aqi best ≤ aqi s ≤ aqi worst) ∧
    (∀ s, s ∈ out → aqi s = aqi best → date_le (date best) (date s)) ∧
    (∀ s, s ∈ out → aqi s = aqi worst → date_le (date worst) (date s)).
Proof.
  intros Hout Hne.
  pose proof (get_aqi_data_sorted _ _ _ Hout) as Hsorted.
  destruct (py_min_by_spec aqi out Hne) as (best & b1 & b2 & Hb & Hbl & Hb1 & Hb2).
  destruct (py_max_by_spec aqi out Hne) as (worst & w1 & w2 & Hw & Hwl & Hw1 & Hw2).
  exists best, worst.
  rewrite (print_statistics_lines fmt fmtf _ best worst);
    [| by eapply get_aqi_data_pm25 | done | done].
  split_and!; [reflexivity | reflexivity | | | | |].
  - rewrite Hbl. set_solver.
  - rewrite Hwl. set_solver.
  - intros s Hs. split.
    + rewrite Hbl in Hs. rewrite Forall_forall in Hb1, Hb2.
      apply elem_of_app in Hs as [Hs|[->|Hs]%elem_of_cons];
        [specialize (Hb1 s Hs) | | specialize (Hb2 s Hs)]; simpl in *; lia.
    + rewrite Hwl in Hs. rewrite Forall_forall in Hw1, Hw2.
      apply elem_of_app in Hs as [Hs|[->|Hs]%elem_of_cons];
        [specialize (Hw1 s Hs) | | specialize (Hw2 s Hs)]; simpl in *; lia.
  - intros s Hs Heq.
    apply (first_is_earliest out b1 b2 best s (λ y, aqi y = aqi best));
      [done..| |done|done].
    eapply Forall_impl; [exact Hb1|]. simpl. lia.
  - intros s Hs Heq.
    apply (first_is_earliest out w1 w2 worst s (λ y, aqi y = aqi worst));
      [done..| |done|done].
    eapply Forall_impl; [exact Hw1|]. simpl. lia.
Qed.

(** X12. On a non-empty list returned by [get_aqi_data], the line
    "Average AQI" shows the mean of the daily AQI values, and that mean lies
    between any two integers that bound the daily values. *)
Theorem average_aqi_line (fmt : Q → string) (fmtf : float → string)
    (tz : Z → Z) (data : Response) (out : list DailySummary) (lo hi : Z) :
  get_aqi_data tz data = Ok out → out ≠ [] →
  Forall (λ s, lo ≤ aqi s ≤ hi) out →
  printed (print_statistics fmt fmtf out) !! 1%nat =
    Some ("Average AQI: " +:+ fmt (average_aqi out)) ∧
  (inject_Z lo <= average_aqi out)%Q ∧ (average_aqi out <= inject_Z hi)%Q.
Proof.
  intros Hout Hne Hrange.
  destruct (py_min_by_spec aqi out Hne) as (best & _ & _ & Hb & _).
  destruct (py_max_by_spec aqi out Hne) as (worst & _ & _ & Hw & _).
  rewrite (print_statistics_lines fmt fmtf _ best worst);
    [| by eapply get_aqi_data_pm25 | done | done].
  split; [reflexivity|]. unfold average_aqi. apply mean_bounds.
  - by destruct out.
  - by apply Forall_fmap.
Qed.

(** * Properties of the dashboard *)

(** The metrics are shown only for a non-empty list, and then they are the
    mean of the column, its label, and the first rows with the lowest and
    the highest value. *)
Lemma page_metrics_inv
    (build_frame draw_charts : list DailySummary → option report_exn)
    (clicked : bool) (fetched : result (list DailySummary))
    (average : Q) (label : string) (best worst : DailySummary) :
  Metrics average label best worst
    ∈ page build_frame draw_charts clicked fetched →
  ∃ l, fetched = Ok l ∧ l ≠ [] ∧
    average = average_aqi l ∧
    label = get_aqi_description (py_round (average_aqi l)) ∧
    py_min_by aqi l = inr best ∧ py_max_by aqi l = inr worst.
Proof.
  unfold page. intros Hin.
  destruct clicked; [|by apply list_elem_of_singleton in Hin].
  destruct fetched as [l|e]; [|by apply list_elem_of_singleton in Hin].
  destruct l as [|s l]; [by apply list_elem_of_singleton in Hin|].
  exists (s :: l). split; [done|]. split; [done|].
  apply elem_of_cons in Hin as [?|Hin]; [done|].
  destruct (build_frame (s :: l));
    [by apply list_elem_of_singleton in Hin|].
  destruct (py_min_by aqi (s :: l)) as [?|b] eqn:Hb;
    [by apply list_elem_of_singleton in Hin|].
  destruct (py_max_by aqi (s :: l)) as [?|w] eqn:Hw;
    [by apply list_elem_of_singleton in Hin|].
  apply elem_of_cons in Hin as [[= -> -> -> ->]|Hin]; [done|].
  destruct (draw_charts (s :: l)); by apply list_elem_of_singleton in Hin.
Qed.

(** X14. When the page shows the metrics, the label under "Average AQI" is
    the classification of the rounded mean of the daily AQI values; that
    rounded mean lies between the AQI of the best day and the AQI of the
    worst day, so the label is not "Unknown" when both are between 1 and
    5. *)
Theorem headline_label
    (build_frame draw_charts : list DailySummary → option report_exn)
    (clicked : bool) (fetched : result (list DailySummary))
    (average : Q) (label : string) (best worst : DailySummary) :
  Metrics average label best worst
    ∈ page build_frame draw_charts clicked fetched →
  label = get_aqi_description (py_round average) ∧
  aqi best ≤ py_round average ≤ aqi worst ∧
  (1 ≤ aqi best → aqi worst ≤ 5 → label ≠ "Unknown").
Proof.
  intros (l & _ & Hne & -> & -> & Hb & Hw)%page_metrics_inv.
  rename best into b, worst into w.
  destruct (py_min_by_spec aqi l Hne) as (b' & b1 & b2 & Hb' & Hbl & Hb1 & Hb2).
  destruct (py_max_by_spec aqi l Hne) as (w' & w1 & w2 & Hw' & Hwl & Hw1 & Hw2).
  assert (b' = b) as -> by congruence. assert (w' = w) as -> by congruence.
  assert (Forall (λ a, aqi b ≤ a ≤ aqi w) (aqi <$> l)) as Hrange.
  { apply Forall_fmap, Forall_forall. intros s Hs. simpl. split.
    - rewrite Hbl in Hs. rewrite Forall_forall in Hb1, Hb2.
      apply elem_of_app in Hs as [Hs|[->|Hs]%elem_of_cons];
        [specialize (Hb1 s Hs) | | specialize (Hb2 s Hs)]; simpl in *; lia.
    - rewrite Hwl in Hs. rewrite Forall_forall in Hw1, Hw2.
      apply elem_of_app in Hs as [Hs|[->|Hs]%elem_of_cons];
        [specialize (Hw1 s Hs) | | specialize (Hw2 s Hs)]; simpl in *; lia. }
  destruct (mean_bounds (aqi b) (aqi w) (aqi <$> l)) as [Hlo Hhi];
    [by destruct l | done |].
  pose proof (py_round_bounds _ _ _ Hlo Hhi) as Hr.
  fold (average_aqi l) in Hr.
  split; [done|]. split; [exact Hr|].
  intros H1 H5. apply description_known. lia.
Qed.

End Python.

(** * The properties at sample inputs *)

Lemma get_aqi_description_total_witness :
  get_aqi_description 0 = "Unknown" ∧ get_aqi_description 6 = "Unknown".
Proof.
  destruct get_aqi_description_total as (_ & _ & _ & _ & _ & H).
  split; apply H; lia.
Defined.

Lemma output_sorted_by_date_witness :
  ∃ out, aggregate Compensated reverse_days = Ok out ∧
    date <$> out = [mkDate 2023 12 31; mkDate 2024 2 29; mkDate 2024 3 1] ∧
    StronglySorted date_lt (date <$> out).
Proof.
  eexists. split; [vm_compute; reflexivity|]. split; [reflexivity|].
  apply (output_sorted_by_date Compensated reverse_days).
  vm_compute. reflexivity.
Defined.

Lemma aggregate_deterministic_witness :
  aggregate Plain reverse_days = aggregate Plain (reverse (reverse reverse_days)).
Proof.
  apply (aggregate_deterministic Plain reverse_days); [reflexivity|].
  vm_compute. reflexivity.
Defined.


Lemma mean_examples_witness :
  ∃ s1 s2,
    aggregate Compensated day_2334 = Ok [s1] ∧
    aqi s1 = 3 ∧ aqi_description s1 = "Moderate" ∧
    aggregate Plain day_10_20 = Ok [s2] ∧
    dd_get "pm2_5" (pollutants s2) = Some 15%float.
Proof.
  exists (day_summary Compensated (mkDate 2024 3 1) day_2334),
         (day_summary Plain (mkDate 2024 3 1) day_10_20).
  assert (aggregate Compensated day_2334
          = Ok [day_summary Compensated (mkDate 2024 3 1) day_2334])
    as H1 by (vm_compute; reflexivity).
  assert (aggregate Plain day_10_20
          = Ok [day_summary Plain (mkDate 2024 3 1) day_10_20])
    as H2 by (vm_compute; reflexivity).
  assert (Forall wf_reading day_2334) as W1 by repeat constructor.
  assert (Forall wf_reading day_10_20) as W2 by repeat constructor.
  destruct (mean_examples Compensated day_2334 _ _ W1 H1
              (list_elem_of_here _ _)) as [Ha _].
  destruct (mean_examples Plain day_10_20 _ _ W2 H2 (list_elem_of_here _ _))
    as [_ Hb].
  split_and!; [exact H1 | by apply Ha | by apply Ha | exact H2 |].
  apply Hb. reflexivity.
Defined.

Lemma aqi_in_range_witness :
  Forall (λ s, 1 ≤ aqi s ≤ 5 ∧ aqi_description s ≠ "Unknown")
    [day_summary Compensated (mkDate 2024 3 1) day_2334].
Proof.
  apply (aqi_in_range Compensated day_2334).
  - repeat constructor; simpl; lia.
  - vm_compute. reflexivity.
Defined.

Lemma single_reading_witness :
  get_aqi_data Compensated ist (mkResponse (Some [item_complete]))
    = Ok [rounded_copy reading_complete] ∧
  dd_get "pm2_5" (pollutants (rounded_copy reading_complete))
    = Some 10%float.
Proof.
  destruct (single_reading Compensated ist item_complete reading_complete)
    as (H & _ & _).
  - vm_compute. reflexivity.
  - split; [exact H | vm_compute; reflexivity].
Defined.

(** C8, as the claim states it, fails under either algorithm of [sum]: a
    reading whose pm2_5 is 0.123 comes out with pm2_5 equal to 0.12. *)
Lemma three_decimals_are_rounded :
  Forall (λ version, ∃ r s,
    process_item utc item_three_decimals = Ok r ∧
    get_aqi_data version utc (mkResponse (Some [item_three_decimals]))
      = Ok [s] ∧
    dd_get "pm2_5" (r_pollutants r) = Some (123 / 1000)%float ∧
    dd_get "pm2_5" (pollutants s) = Some (12 / 100)%float ∧
    ¬ carries_unchanged r s) [Plain; Compensated].
Proof.
  constructor; [|constructor; [|constructor]].
  all: do 2 eexists; split; [vm_compute; reflexivity|].
  all: split; [vm_compute; reflexivity|].
  all: split; [vm_compute; reflexivity|].
  all: split; [vm_compute; reflexivity|].
  all: intros [_ H].
  all: destruct (H "pm2_5" (123 / 1000)%float) as (v' & Hv' & Heq);
    [vm_compute; reflexivity|].
  all: vm_compute in Hv'; injection Hv' as <-.
  all: vm_compute in Heq; discriminate.
Qed.

Lemma malformed_record_rejected_witness :
  get_aqi_data Compensated ist
    (mkResponse (Some ([item_complete] ++ item_without_so2 :: [item_complete])))
    = Raise (KeyError "so2").
Proof.
  apply (malformed_record_rejected Compensated ist [item_complete]
           [item_complete] item_without_so2); [reflexivity | reflexivity |].
  intros k. unfold lacks. simpl.
  repeat (case_decide; [discriminate|]).
  intros [Hk Hnone]%andb_true_iff. apply bool_decide_eq_true in Hk.
  unfold CHANNELS in Hk.
  repeat (apply elem_of_cons in Hk as [->|Hk]; [by vm_compute in Hnone|]);
    try by apply elem_of_nil in Hk.
Defined.

Lemma buckets_complete_witness :
  ∃ out, get_aqi_data Compensated ist
           (mkResponse (Some [item_complete; item_three_decimals])) = Ok out.
Proof.
  eapply (buckets_complete Compensated ist
            [item_complete; item_three_decimals]).
  vm_compute. reflexivity.
Defined.

(** C7, as the claim states it, fails under either algorithm of [sum]: the
    averaging step has no error of its own.  On a bucket from which so2 is
    absent it returns a summary without so2; on a bucket whose so2 sequence
    is empty it raises [ZeroDivisionError]. *)
Lemma incomplete_bucket_not_reported :
  Forall (λ version,
    (∃ s, summarize_day version (mkDate 2024 3 1, bucket_without_so2) = Ok s ∧
          dd_get "so2" (pollutants s) = None ∧
          keys (pollutants s)
            = ["co"; "no"; "no2"; "o3"; "pm2_5"; "pm10"; "nh3"]) ∧
    summarize_day version (mkDate 2024 3 1, bucket_empty_so2)
      = Raise ZeroDivisionError) [Plain; Compensated].
Proof.
  constructor; [|constructor; [|constructor]].
  all: split; [|vm_compute; reflexivity].
  all: eexists; split; [vm_compute; reflexivity|]; split; reflexivity.
Qed.

Lemma summaries_have_all_channels_witness :
  Forall (λ s, keys (pollutants s) = CHANNELS ∧
               aqi_description s = get_aqi_description (aqi s))
    [rounded_copy reading_complete].
Proof.
  apply (summaries_have_all_channels Compensated ist
           (mkResponse (Some [item_complete]))).
  vm_compute. reflexivity.
Defined.

Lemma summaries_count_witness :
  ([rounded_copy reading_complete] = [] ↔ [item_complete] = []) ∧
  (length [rounded_copy reading_complete] ≤ length [item_complete])%nat.
Proof.
  apply (summaries_count Compensated ist). vm_compute. reflexivity.
Defined.

Lemma interleaving_irrelevant_witness :
  aggregate Compensated interleaved_days = aggregate Compensated grouped_days.
Proof.
  apply interleaving_irrelevant; [repeat constructor..|].
  intros d. unfold day_readings, interleaved_days, grouped_days.
  rewrite !filter_cons, !filter_nil. simpl.
  repeat case_decide; congruence.
Defined.

Lemma day_aqi_bounds_witness :
  2 ≤ aqi (day_summary Compensated (mkDate 2024 3 1) day_2334) ≤ 4.
Proof.
  apply (day_aqi_bounds Compensated day_2334
           [day_summary Compensated (mkDate 2024 3 1) day_2334]).
  - vm_compute. reflexivity.
  - left.
  - repeat constructor; simpl; lia.
Defined.

Lemma first_missing_key_reported_witness :
  get_aqi_data Compensated utc
    (mkResponse (Some ([item_complete] ++ item_without_dt_so2
                         :: [item_without_so2])))
    = Raise (KeyError "dt").
Proof.
  apply first_missing_key_reported; reflexivity.
Defined.

Lemma two_codes_tie_to_even_witness :
  aqi (day_summary Compensated (mkDate 2024 3 1) day_3_4) = 4.
Proof.
  apply (two_codes_tie_to_even Compensated day_3_4
           [day_summary Compensated (mkDate 2024 3 1) day_3_4] _ 3).
  - vm_compute. reflexivity.
  - left.
  - left. reflexivity.
Defined.

Lemma print_aqi_summary_after_fetch_witness :
  outcome (print_aqi_summary (λ _, "") [rounded_copy reading_complete])
    = inr tt ∧
  length (printed (print_aqi_summary (λ _, "") [rounded_copy reading_complete]))
    = 8%nat.
Proof.
  apply (print_aqi_summary_after_fetch Compensated _ ist
           (mkResponse (Some [item_complete]))).
  vm_compute. reflexivity.
Defined.

Lemma print_aqi_summary_needs_four_channels_witness :
  outcome (print_aqi_summary (λ _, "") [summary_without_so2]) = inr tt.
Proof.
  apply (print_aqi_summary_needs_four_channels (λ _, "")).
  repeat constructor; by eexists.
Defined.

Lemma statistics_after_fetch_witness :
  outcome (print_statistics Compensated (λ _, "") (λ _, "") two_day_output)
    = inr tt ∧
  length (printed (print_statistics Compensated (λ _, "") (λ _, "")
                     two_day_output)) = 5%nat.
Proof.
  assert (get_aqi_data Compensated ist two_day_response = Ok two_day_output)
    as H by (vm_compute; reflexivity).
  exact (statistics_after_fetch Compensated (λ _, "") (λ _, "") ist
           two_day_response two_day_output H).
Defined.

Lemma best_and_worst_day_witness :
  ∃ best worst,
    printed (print_statistics Compensated (λ _, "") (λ _, "") two_day_output)
      !! 3%nat =
      Some ("Best day: " +:+ strftime_ymd (date best) +:+ " (AQI "
              +:+ pretty (aqi best) +:+ ")") ∧
    printed (print_statistics Compensated (λ _, "") (λ _, "") two_day_output)
      !! 4%nat =
      Some ("Worst day: " +:+ strftime_ymd (date worst) +:+ " (AQI "
              +:+ pretty (aqi worst) +:+ ")") ∧
    best ∈ two_day_output ∧ worst ∈ two_day_output ∧
    (∀ s, s ∈ two_day_output → aqi best ≤ aqi s ≤ aqi worst) ∧
    (∀ s, s ∈ two_day_output → aqi s = aqi best →
          date_le (date best) (date s)) ∧
    (∀ s, s ∈ two_day_output → aqi s = aqi worst →
          date_le (date worst) (date s)).
Proof.
  apply (best_and_worst_day Compensated (λ _, "") (λ _, "") ist
           two_day_response two_day_output).
  - vm_compute. reflexivity.
  - discriminate.
Defined.

Lemma average_aqi_line_witness :
  (inject_Z 2 <= average_aqi two_day_output)%Q ∧
  (average_aqi two_day_output <= inject_Z 4)%Q.
Proof.
  apply (average_aqi_line Compensated (λ _, "") (λ _, "") ist
           two_day_response two_day_output 2 4).
  - vm_compute. reflexivity.
  - discriminate.
  - repeat constructor; simpl; lia.
Defined.

(** The page of two days on which the charts raise: the metrics are shown
    before the error box, and the label is that of the rounded mean. *)
Lemma headline_label_witness :
  "Moderate" = get_aqi_description (py_round (average_aqi two_day_output)) ∧
  2 ≤ py_round (average_aqi two_day_output) ≤ 4 ∧
  (1 ≤ 2 → 4 ≤ 5 → "Moderate" ≠ "Unknown").
Proof.
  apply (headline_label (λ _, None) (λ _, Some (LibraryError "plotly")) true
           (get_aqi_data Compensated ist two_day_response)
           (average_aqi two_day_output) "Moderate"
           (mkDailySummary (mkDate 2023 11 15) 2 "Fair"
              ((λ c, (c, 15%float)) <$> CHANNELS))
           (mkDailySummary (mkDate 2023 11 16) 4 "Poor"
              ((λ c, (c, 30%float)) <$> CHANNELS))).
  vm_compute. right. left.
Defined.
